(** * SwarmUI client adapter: a shallow embedding of
      backend/open_webui/utils/images/swarmui.py

    The Python module talks to a remote SwarmUI server through the
    [requests] library.  The embedding keeps the code's shape:

    - values decoded by [resp.json()] are untyped JSON values ([json]),
      with Python's dynamic operations ([in], [.get], subscripting,
      iteration, [.startswith], truthiness) written out, including the
      exception each one raises on a value of the wrong type;
    - a Python dict is an association list in insertion order with
      unique keys, updated in place by [dict_set];
    - the remote server is an oracle in the [world]: given the requests
      sent so far and the current one it decides what [requests.post]
      does;
    - functions run in a state-and-exception monad [M] over the [world],
      [try ... except Exception] is [try_except]. *)

From Stdlib Require Import String Ascii List ZArith Bool Lia.
From Stdlib Require Import Floats.
Import ListNotations.
Open Scope string_scope.
Open Scope Z_scope.
Set Warnings "-register-all".

(** ** Python values *)

Module Py.

(** Values produced by [json.loads] and the dict and list literals the
    module builds.  Python strings are modelled by [string], which holds
    their UTF-8 bytes. *)
Inductive json : Type :=
| JNull
| JBool (b : bool)
| JInt (z : Z)
| JFloat (f : float)
| JStr (s : string)
| JArr (l : list json)
| JObj (d : list (string * json)).

(** An instance of a subclass of [Exception]: its class name and the
    text [str(e)] gives. *)
Inductive py_exception : Type :=
| PyExc (cls : string) (msg : string).

Definition str_exc (e : py_exception) : string :=
  match e with PyExc _ msg => msg end.

(** The outcome of evaluating a Python expression. *)
Inductive comp (A : Type) : Type :=
| Ret (a : A)
| Raise (e : py_exception).
Arguments Ret {A} a.
Arguments Raise {A} e.

(** [type(v).__name__] *)
Definition type_name (v : json) : string :=
  match v with
  | JNull => "NoneType"
  | JBool _ => "bool"
  | JInt _ => "int"
  | JFloat _ => "float"
  | JStr _ => "str"
  | JArr _ => "list"
  | JObj _ => "dict"
  end.

(** [bool(v)], as used by [if v:] and [if not v:]. *)
Definition truthy (v : json) : bool :=
  match v with
  | JNull => false
  | JBool b => b
  | JInt z => negb (z =? 0)
  | JFloat f => negb (PrimFloat.eqb f PrimFloat.zero)
  | JStr s => negb (s =? "")%string
  | JArr l => match l with [] => false | _ => true end
  | JObj d => match d with [] => false | _ => true end
  end.

(** *** Dicts *)

Section Dict.
Context {V : Type}.

Fixpoint dict_get (d : list (string * V)) (k : string) : option V :=
  match d with
  | [] => None
  | (k', v) :: d' => if (k' =? k)%string then Some v else dict_get d' k
  end.

Definition dict_has (d : list (string * V)) (k : string) : bool :=
  match dict_get d k with Some _ => true | None => false end.

(** [d[k] = v]: an existing key keeps its place, a new one goes last. *)
Fixpoint dict_set (d : list (string * V)) (k : string) (v : V)
  : list (string * V) :=
  match d with
  | [] => [(k, v)]
  | (k', v') :: d' =>
      if (k' =? k)%string then (k', v) :: d' else (k', v') :: dict_set d' k v
  end.

(** A dict display [{k1: v1, ..., kn: vn}], and [{**d, k1: v1, ...}]. *)
Definition dict_update (d items : list (string * V)) : list (string * V) :=
  fold_left (fun acc kv => dict_set acc (fst kv) (snd kv)) items d.

Definition dict_lit (items : list (string * V)) : list (string * V) :=
  dict_update [] items.
End Dict.

(** *** Strings *)

(** [s.startswith(p)] *)
Definition startswith (s p : string) : bool := String.prefix p s.

(** [needle in hay] on two strings *)
Fixpoint str_contains (needle hay : string) : bool :=
  String.prefix needle hay ||
  match hay with
  | EmptyString => false
  | String _ hay' => str_contains needle hay'
  end.

(** A string holds the UTF-8 bytes of the Python str; a byte [10xxxxxx]
    continues the character begun before it. *)
Definition is_continuation (c : ascii) : bool :=
  match c with
  | Ascii _ _ _ _ _ _ b6 b7 => b7 && negb b6
  end.

(** The characters of a string, each as a string of length one: a first
    byte with the continuation bytes that follow it. *)
Fixpoint str_chars (s : string) : list string :=
  match s with
  | EmptyString => []
  | String c s' =>
      let rest := str_chars s' in
      match s' with
      | String c' _ =>
          if is_continuation c'
          then match rest with
               | h :: t => String c h :: t
               | [] => [String c EmptyString]
               end
          else String c EmptyString :: rest
      | EmptyString => String c EmptyString :: rest
      end
  end.

(** *** Dynamic operations *)

Definition is_str (v : json) (s : string) : bool :=
  match v with JStr s' => (s' =? s)%string | _ => false end.

(** [k in v] for a string [k] *)
Definition py_contains (k : string) (v : json) : comp bool :=
  match v with
  | JObj d => Ret (dict_has d k)
  | JArr l => Ret (existsb (fun x => is_str x k) l)
  | JStr s => Ret (str_contains k s)
  | _ => Raise (PyExc "TypeError"
                  ("argument of type '" ++ type_name v ++ "' is not iterable"))
  end.

(** [v[k]] for a string [k] *)
Definition py_getitem (v : json) (k : string) : comp json :=
  match v with
  | JObj d =>
      match dict_get d k with
      | Some x => Ret x
      | None => Raise (PyExc "KeyError" ("'" ++ k ++ "'"))
      end
  | JArr _ =>
      Raise (PyExc "TypeError" "list indices must be integers or slices, not str")
  | JStr _ =>
      Raise (PyExc "TypeError" "string indices must be integers, not 'str'")
  | _ => Raise (PyExc "TypeError"
                  ("'" ++ type_name v ++ "' object is not subscriptable"))
  end.

(** [v.get(k, dflt)]: only a dict has the method. *)
Definition py_get (v : json) (k : string) (dflt : json) : comp json :=
  match v with
  | JObj d => Ret (match dict_get d k with Some x => x | None => dflt end)
  | _ => Raise (PyExc "AttributeError"
                  ("'" ++ type_name v ++ "' object has no attribute 'get'"))
  end.

(** The items [for x in v] goes through. *)
Definition py_iter (v : json) : comp (list json) :=
  match v with
  | JArr l => Ret l
  | JStr s => Ret (map JStr (str_chars s))
  | JObj d => Ret (map (fun kv => JStr (fst kv)) d)
  | _ => Raise (PyExc "TypeError"
                  ("'" ++ type_name v ++ "' object is not iterable"))
  end.

Definition json_of_option {A : Type} (f : A -> json) (o : option A) : json :=
  match o with Some a => f a | None => JNull end.

End Py.

(** ** The HTTP collaborator and the monad of effects *)

Module Http.
Import Py.

(** A call [requests.post(url, headers=..., json=..., timeout=...)]. *)
Record request : Type := mkRequest {
  req_url : string;
  req_headers : list (string * string);
  req_json : json;
  req_timeout : option Z
}.

(** What the module observes of a [requests.Response]: whether
    [raise_for_status()] raises, and what [json()] returns or raises. *)
Record response : Type := mkResponse {
  resp_status_error : option py_exception;
  resp_body : comp json
}.

(** [requests.post] either raises (connection, DNS, timeout) or returns. *)
Inductive post_outcome : Type :=
| PostRaises (e : py_exception)
| PostReturns (r : response).

Inductive log_level : Type := INFO | ERROR.

(** The remote server decides each POST from the requests it has seen
    and the current one; the world also records every request sent and
    every line logged. *)
Record world : Type := mkWorld {
  w_server : list request -> request -> post_outcome;
  w_requests : list request;
  w_log : list (log_level * string)
}.

Definition M (A : Type) : Type := world -> comp A * world.

Definition ret {A : Type} (a : A) : M A := fun w => (Ret a, w).

Definition bind {A B : Type} (c : M A) (k : A -> M B) : M B :=
  fun w =>
    match c w with
    | (Ret a, w') => k a w'
    | (Raise e, w') => (Raise e, w')
    end.

Definition lift {A : Type} (c : comp A) : M A := fun w => (c, w).

(** [try: body  except Exception as e: handler] *)
Definition try_except {A : Type} (body : M A) (handler : py_exception -> M A)
  : M A :=
  fun w =>
    match body w with
    | (Ret a, w') => (Ret a, w')
    | (Raise e, w') => handler e w'
    end.

Declare Scope py_scope.
Delimit Scope py_scope with py.
Notation "x <- c ;; k" := (bind c (fun x => k))
  (at level 61, c at next level, right associativity) : py_scope.
Notation "c ;; k" := (bind c (fun _ => k))
  (at level 61, right associativity) : py_scope.

Definition sent (w : world) (req : request) : world :=
  {| w_server := w_server w;
     w_requests := w_requests w ++ [req];
     w_log := w_log w |}.

Definition logged (w : world) (lvl : log_level) (msg : string) : world :=
  {| w_server := w_server w;
     w_requests := w_requests w;
     w_log := w_log w ++ [(lvl, msg)] |}.

Definition requests_post (url : string) (headers : list (string * string))
    (body : json) (timeout : option Z) : M response :=
  fun w =>
    let req := mkRequest url headers body timeout in
    match w_server w (w_requests w) req with
    | PostRaises e => (Raise e, sent w req)
    | PostReturns r => (Ret r, sent w req)
    end.

Definition raise_for_status (resp : response) : M unit :=
  lift (match resp_status_error resp with
        | Some e => Raise e
        | None => Ret tt
        end).

Definition resp_json (resp : response) : M json := lift (resp_body resp).

Definition log_info (msg : string) : M unit :=
  fun w => (Ret tt, logged w INFO msg).

Definition log_error (msg : string) : M unit :=
  fun w => (Ret tt, logged w ERROR msg).

(** [log.exception] logs at level ERROR. *)
Definition log_exception (msg : string) : M unit := log_error msg.

End Http.

(** ** The module swarmui.py *)

Module Swarmui.
Import Py Http.
Local Open Scope py_scope.

(** [class SwarmUIGenerateImageForm(BaseModel)] *)
Module Form.
Record t : Type := mk {
  prompt : string;
  negative_prompt : option string;
  width : Z;
  height : Z;
  n : Z;
  steps : option Z;
  seed : option Z;
  model : option string
}.
End Form.
Definition SwarmUIGenerateImageForm : Type := Form.t.

Definition nonempty (s : string) : bool := negb (s =? "")%string.

(** Lines 87-89 and 117-119: the headers of the session and generation
    requests. *)
Definition session_headers (api_key : string) : list (string * string) :=
  let headers := dict_lit [("User-Agent", "Mozilla/5.0")] in
  if nonempty api_key
  then dict_set headers "Authorization" ("Bearer " ++ api_key)
  else headers.

Definition get_swarmui_session_id (base_url api_key : string) : M json :=
  let headers := session_headers api_key in
  try_except
    (resp <- requests_post (base_url ++ "/API/GetNewSession") headers
                           (JObj []) (Some 20) ;;
     raise_for_status resp ;;
     data <- resp_json resp ;;
     lift (py_get data "session_id" JNull))
    (fun e =>
       log_error ("Failed to get SwarmUI session id: " ++ str_exc e) ;;
       ret JNull).

(** Lines 125-138: [raw_input]. *)
Definition raw_input_of (model : string) (payload : SwarmUIGenerateImageForm)
    (session_id : json) : list (string * json) :=
  let raw_input :=
    dict_lit [("prompt", JStr (Form.prompt payload));
              ("width", JInt (Form.width payload));
              ("height", JInt (Form.height payload));
              ("steps", json_of_option JInt (Form.steps payload));
              ("images", JInt (Form.n payload));
              ("session_id", session_id)] in
  let raw_input :=
    match Form.negative_prompt payload with
    | Some np =>
        if nonempty np then dict_set raw_input "negative_prompt" (JStr np)
        else raw_input
    | None => raw_input
    end in
  let raw_input :=
    match Form.seed payload with
    | Some sd => dict_set raw_input "seed" (JInt sd)
    | None => raw_input
    end in
  if nonempty model then dict_set raw_input "model" (JStr model)
  else raw_input.

(** Lines 140-144: [data]. *)
Definition data_of (model : string) (payload : SwarmUIGenerateImageForm)
    (session_id : json) : list (string * json) :=
  dict_update
    (dict_lit [("images", JInt (Form.n payload)); ("session_id", session_id)])
    (filter (fun kv => negb (fst kv =? "session_id")%string)
            (raw_input_of model payload session_id)).

(** Lines 170-175: the loop body, run over the items of the image list. *)
Fixpoint collect_images (base_url : string) (items : list json)
    (images : list json) : comp (list json) :=
  match items with
  | [] => Ret images
  | img_path :: rest =>
      match img_path with
      | JStr s =>
          if startswith s "data:"
          then collect_images base_url rest
                 (images ++ [JObj (dict_lit [("url", JStr s)])])
          else
            let img_url :=
              if negb (startswith s "http") then base_url ++ "/" ++ s else s in
            collect_images base_url rest
              (images ++ [JObj (dict_lit [("url", JStr img_url)])])
      | _ =>
          Raise (PyExc "AttributeError"
                   ("'" ++ type_name img_path
                        ++ "' object has no attribute 'startswith'"))
      end
  end.

(** Lines 169-176. *)
Definition image_list (base_url : string) (result : json) : M json :=
  found <- lift (py_get result "images" (JArr [])) ;;
  items <- lift (py_iter found) ;;
  images <- lift (collect_images base_url items []) ;;
  ret (JObj (dict_lit [("data", JArr images)])).

(** Line 155: ["error_id" in result and result["error_id"] == "invalid_session_id"] *)
Definition session_expired (result : json) : M bool :=
  present <- lift (py_contains "error_id" result) ;;
  if present
  then v <- lift (py_getitem result "error_id") ;;
       ret (is_str v "invalid_session_id")
  else ret false.

Definition error_dict (msg : string) : json :=
  JObj (dict_lit [("error", JStr msg)]).

Definition swarmui_generate_image (model : string)
    (payload : SwarmUIGenerateImageForm)
    (client_id base_url api_key : string) : M json :=
  log_info ("swarmui_generate_image: model=" ++ model
              ++ ", client_id=" ++ client_id) ;;
  let headers := session_headers api_key in
  session_id <- get_swarmui_session_id base_url api_key ;;
  if negb (truthy session_id)
  then ret (error_dict "Could not obtain SwarmUI session id")
  else
    let data := data_of model payload session_id in
    try_except
      (resp <- requests_post (base_url ++ "/API/GenerateText2Image") headers
                             (JObj data) (Some 120) ;;
       raise_for_status resp ;;
       result <- resp_json resp ;;
       expired <- session_expired result ;;
       if expired
       then
         session_id <- get_swarmui_session_id base_url api_key ;;
         if negb (truthy session_id)
         then ret (error_dict "Could not obtain SwarmUI session id (retry)")
         else
           let data := dict_set data "session_id" session_id in
           resp <- requests_post (base_url ++ "/API/GenerateText2Image")
                                 headers (JObj data) (Some 120) ;;
           raise_for_status resp ;;
           result <- resp_json resp ;;
           image_list base_url result
       else image_list base_url result)
      (fun e =>
         log_exception ("Error in SwarmUI image generation: " ++ str_exc e) ;;
         ret (error_dict (str_exc e))).

Definition list_swarmui_models (base_url api_key path : string) (depth : Z)
    (subtype sortBy : string) (allowRemote sortReverse : bool) : M json :=
  let url := base_url ++ "/API/ListModels" in
  let payload :=
    dict_lit [("path", JStr path);
              ("depth", JInt depth);
              ("subtype", JStr subtype);
              ("sortBy", JStr sortBy);
              ("allowRemote", JBool allowRemote);
              ("sortReverse", JBool sortReverse)] in
  let headers :=
    dict_lit [("Authorization", "Bearer " ++ api_key);
              ("Content-Type", "application/json")] in
  try_except
    (response <- requests_post url headers (JObj payload) None ;;
     raise_for_status response ;;
     data <- resp_json response ;;
     lift (py_get data "files" (JArr [])))
    (fun e =>
       log_exception ("Error fetching SwarmUI models: " ++ str_exc e) ;;
       ret (JArr [])).

Definition select_swarmui_model (base_url api_key model_path : string)
    (backendId : option string) : M json :=
  let url := base_url ++ "/API/SelectModel" in
  let payload :=
    dict_lit [("model", JStr model_path);
              ("backendId", json_of_option JStr backendId)] in
  let headers :=
    dict_lit [("Authorization", "Bearer " ++ api_key);
              ("Content-Type", "application/json")] in
  try_except
    (response <- requests_post url headers (JObj payload) None ;;
     raise_for_status response ;;
     data <- resp_json response ;;
     lift (py_get data "success" (JBool false)))
    (fun e =>
       log_exception ("Error selecting SwarmUI model: " ++ str_exc e) ;;
       ret (JBool false)).

End Swarmui.

(** ** Vocabulary of the properties *)

Module Protocol.
Import Py Http Swarmui.

(** The two requests the generation protocol sends. *)
Definition session_request (base_url api_key : string) : request :=
  mkRequest (base_url ++ "/API/GetNewSession") (session_headers api_key)
            (JObj []) (Some 20).

Definition generation_request (base_url api_key : string)
    (data : list (string * json)) : request :=
  mkRequest (base_url ++ "/API/GenerateText2Image") (session_headers api_key)
            (JObj data) (Some 120).

(** The requests of [list_swarmui_models] and [select_swarmui_model]. *)
Definition list_models_request (base_url api_key path : string) (depth : Z)
    (subtype sortBy : string) (allowRemote sortReverse : bool) : request :=
  mkRequest (base_url ++ "/API/ListModels")
            [("Authorization", "Bearer " ++ api_key);
             ("Content-Type", "application/json")]
            (JObj [("path", JStr path);
                   ("depth", JInt depth);
                   ("subtype", JStr subtype);
                   ("sortBy", JStr sortBy);
                   ("allowRemote", JBool allowRemote);
                   ("sortReverse", JBool sortReverse)])
            None.

Definition select_model_request (base_url api_key model_path : string)
    (backendId : option string) : request :=
  mkRequest (base_url ++ "/API/SelectModel")
            [("Authorization", "Bearer " ++ api_key);
             ("Content-Type", "application/json")]
            (JObj [("model", JStr model_path);
                   ("backendId", json_of_option JStr backendId)])
            None.

Definition is_session_post (base_url : string) (r : request) : bool :=
  (req_url r =? base_url ++ "/API/GetNewSession")%string.

Definition is_generation_post (base_url : string) (r : request) : bool :=
  (req_url r =? base_url ++ "/API/GenerateText2Image")%string.

Definition count_posts (p : request -> bool) (tr : list request) : nat :=
  length (filter p tr).

(** What a POST yields once [raise_for_status()] and [json()] went
    through: the decoded body, or the first exception. *)
Definition reply_json (o : post_outcome) : comp json :=
  match o with
  | PostRaises e => Raise e
  | PostReturns r =>
      match resp_status_error r with
      | Some e => Raise e
      | None => resp_body r
      end
  end.

(** The failures of one POST: the call raised, the status is an error,
    or the body does not parse. *)
Definition transport_failure (o : post_outcome) : bool :=
  match reply_json o with
  | Raise _ => true
  | Ret _ => false
  end.

(** The body of a response names the expired session. *)
Definition expiry_signal (body : json) : bool :=
  match body with
  | JObj d =>
      match dict_get d "error_id" with
      | Some v => is_str v "invalid_session_id"
      | None => false
      end
  | _ => false
  end.

(** Session acquisition as the specification words it: null on a
    transport error, an error status or a body without the session
    field, the field's value otherwise. *)
Definition acquire_session_spec (o : post_outcome) : json :=
  match o with
  | PostRaises _ => JNull
  | PostReturns r =>
      match resp_status_error r with
      | Some _ => JNull
      | None =>
          match resp_body r with
          | Ret (JObj d) =>
              match dict_get d "session_id" with
              | Some sid => sid
              | None => JNull
              end
          | _ => JNull
          end
      end
  end.

(** The url rule as the specification words it: a scheme or [data:]
    passes through, anything else is joined to the base url. *)
Definition spec_image_url (base_url p : string) : string :=
  if startswith p "http://" || startswith p "https://" then p
  else if startswith p "data:" then p
  else base_url ++ "/" ++ p.

(** The url rule the loop applies. *)
Definition image_url (base_url p : string) : string :=
  if startswith p "data:" then p
  else if startswith p "http" then p
  else base_url ++ "/" ++ p.

Definition image_ref (url : string) : json := JObj [("url", JStr url)].

Definition data_dict (images : list json) : json :=
  JObj [("data", JArr images)].

(** Lines 169-179 on a decoded body: the image list, or the error dict
    the handler makes of the exception. *)
Definition images_or_error (base_url : string) (result : json) : json :=
  match py_get result "images" (JArr []) with
  | Raise e => error_dict (str_exc e)
  | Ret found =>
      match py_iter found with
      | Raise e => error_dict (str_exc e)
      | Ret items =>
          match collect_images base_url items [] with
          | Raise e => error_dict (str_exc e)
          | Ret images => data_dict images
          end
      end
  end.

(** Line 155 on a decoded body. *)
Definition expired_or_error (result : json) : comp bool :=
  match py_contains "error_id" result with
  | Raise e => Raise e
  | Ret false => Ret false
  | Ret true =>
      match py_getitem result "error_id" with
      | Raise e => Raise e
      | Ret v => Ret (is_str v "invalid_session_id")
      end
  end.

(** The value and the requests of one run of [swarmui_generate_image],
    read off the server's answers: [srv] is the server, [h] the requests
    sent before the call.  [Facts.generate_refines] proves that the
    function computes exactly this. *)
Definition generate_run (model : string) (payload : SwarmUIGenerateImageForm)
    (base_url api_key : string)
    (srv : list request -> request -> post_outcome) (h : list request)
  : json * list request :=
  let s := session_request base_url api_key in
  let sid := acquire_session_spec (srv h s) in
  if negb (truthy sid)
  then (error_dict "Could not obtain SwarmUI session id", [s])
  else
    let data := data_of model payload sid in
    let g := generation_request base_url api_key data in
    match reply_json (srv (h ++ [s])%list g) with
    | Raise e => (error_dict (str_exc e), [s; g])
    | Ret result =>
        match expired_or_error result with
        | Raise e => (error_dict (str_exc e), [s; g])
        | Ret false => (images_or_error base_url result, [s; g])
        | Ret true =>
            let sid2 := acquire_session_spec (srv (h ++ [s; g])%list s) in
            if negb (truthy sid2)
            then (error_dict "Could not obtain SwarmUI session id (retry)",
                  [s; g; s])
            else
              let g2 := generation_request base_url api_key
                          (dict_set data "session_id" sid2) in
              match reply_json (srv (h ++ [s; g; s])%list g2) with
              | Raise e => (error_dict (str_exc e), [s; g; s; g2])
              | Ret result2 =>
                  (images_or_error base_url result2, [s; g; s; g2])
              end
        end
    end.

(** The keys of the generation payload depend on the request this way. *)
Definition has_negative_prompt (payload : SwarmUIGenerateImageForm) : bool :=
  match Form.negative_prompt payload with
  | Some np => nonempty np
  | None => false
  end.

Definition has_seed (payload : SwarmUIGenerateImageForm) : bool :=
  match Form.seed payload with Some _ => true | None => false end.


(** What the handler of [swarmui_generate_image] makes of an outcome. *)
Definition settle (c : comp json) : json :=
  match c with
  | Ret v => v
  | Raise e => error_dict (str_exc e)
  end.

Definition payload_keys (model : string) (payload : SwarmUIGenerateImageForm)
    (data : list (string * json)) : Prop :=
  (dict_has data "negative_prompt" = true
   <-> exists np, Form.negative_prompt payload = Some np /\ np <> "")
  /\ (dict_has data "seed" = true <-> Form.seed payload <> None)
  /\ (dict_has data "model" = true <-> model <> "")
  /\ dict_get data "steps" = Some (json_of_option JInt (Form.steps payload)).

End Protocol.

(** ** Concrete servers and requests *)

Module Scenario.
Import Py Http Swarmui Protocol.

(** A server that answers the i-th POST with the i-th outcome of a
    script and refuses the connection afterwards. *)
Definition scripted (script : list post_outcome)
  : list request -> request -> post_outcome :=
  fun h _ => nth (length h) script (PostRaises (PyExc "ConnectionError" "refused")).

(** A server that hands out a session and calls every session expired. *)
Definition always_expired (base_url : string)
  : list request -> request -> post_outcome :=
  fun _ r =>
    PostReturns
      (mkResponse None
         (Ret (if is_session_post base_url r
               then JObj [("session_id", JStr "s")]
               else JObj [("error_id", JStr "invalid_session_id")]))).

Definition ok (body : json) : post_outcome :=
  PostReturns (mkResponse None (Ret body)).

Definition http_error (msg : string) : post_outcome :=
  PostReturns (mkResponse (Some (PyExc "HTTPError" msg))
                          (Ret (JObj []))).

Definition session_ok (sid : string) : post_outcome :=
  ok (JObj [("session_id", JStr sid)]).

Definition expired : post_outcome :=
  ok (JObj [("error_id", JStr "invalid_session_id")]).

Definition fresh (srv : list request -> request -> post_outcome) : world :=
  mkWorld srv [] [].

Definition svc : string := "https://svc.example".

Definition cat : SwarmUIGenerateImageForm :=
  Form.mk "cat" None 512 512 1 None None None.

End Scenario.

(** ** The urllib collaborator *)

Module Urllib.
Import Py.

(** A [urllib.request.Request(url, data=..., headers=...)]; [data] is
    absent for a GET. *)
Record url_request : Type := mkUrlRequest {
  ureq_url : string;
  ureq_data : option string;
  ureq_headers : list (string * string)
}.

(** Building the request, [urlopen] and [read()] either raise or give
    the bytes of the body. *)
Inductive url_outcome : Type :=
| UrlRaises (e : py_exception)
| UrlReturns (body : string).

Inductive level : Type := LDebug | LInfo | LError.

Record uworld : Type := mkUworld {
  u_server : list url_request -> url_request -> url_outcome;
  u_requests : list url_request;
  u_log : list (level * string)
}.

Definition U (A : Type) : Type := uworld -> comp A * uworld.

Definition uret {A : Type} (a : A) : U A := fun w => (Ret a, w).

Definition uraise {A : Type} (e : py_exception) : U A := fun w => (Raise e, w).

Definition ubind {A B : Type} (c : U A) (k : A -> U B) : U B :=
  fun w =>
    match c w with
    | (Ret a, w') => k a w'
    | (Raise e, w') => (Raise e, w')
    end.

Definition ulift {A : Type} (c : comp A) : U A := fun w => (c, w).

Definition utry_except {A : Type} (body : U A) (handler : py_exception -> U A)
  : U A :=
  fun w =>
    match body w with
    | (Ret a, w') => (Ret a, w')
    | (Raise e, w') => handler e w'
    end.

Declare Scope url_scope.
Delimit Scope url_scope with url.
Notation "x <- c ;; k" := (ubind c (fun x => k))
  (at level 61, c at next level, right associativity) : url_scope.
Notation "c ;; k" := (ubind c (fun _ => k))
  (at level 61, right associativity) : url_scope.

Definition ulog (lvl : level) (msg : string) : U unit :=
  fun w =>
    (Ret tt,
     {| u_server := u_server w;
        u_requests := u_requests w;
        u_log := u_log w ++ [(lvl, msg)] |}).

(** [urllib.request.urlopen(req).read()] *)
Definition urlopen_read (req : url_request) : U string :=
  fun w =>
    let w' := {| u_server := u_server w;
                 u_requests := u_requests w ++ [req];
                 u_log := u_log w |} in
    match u_server w (u_requests w) req with
    | UrlRaises e => (Raise e, w')
    | UrlReturns body => (Ret body, w')
    end.

End Urllib.

(** ** The functions of swarmui.py on urllib *)

Module Legacy.
Import Py Urllib.
Local Open Scope url_scope.

Section Library.

(** The standard library functions the module calls:
    [urllib.parse.urlencode] on a dict of strings,
    [json.dumps(p).encode("utf-8")], [json.loads], and the text an
    f-string prints for a bytes object. *)
Variable urlencode : list (string * string) -> string.
Variable json_dumps : json -> string.
Variable json_loads : string -> comp json.
Variable bytes_repr : string -> string.

Definition default_headers : list (string * string) :=
  dict_lit [("User-Agent", "Mozilla/5.0")].

Definition queue_prompt (prompt : json) (client_id base_url api_key : string)
  : U json :=
  ulog LInfo "queue_prompt" ;;
  let p := dict_lit [("prompt", prompt); ("client_id", JStr client_id)] in
  let data := json_dumps (JObj p) in
  ulog LDebug ("queue_prompt data: " ++ bytes_repr data) ;;
  utry_except
    (let req :=
       mkUrlRequest (base_url ++ "/prompt") (Some data)
         (dict_update default_headers
            [("Authorization", "Bearer " ++ api_key)]) in
     response <- urlopen_read req ;;
     ulift (json_loads response))
    (fun e =>
       ulog LError ("Error while queuing prompt: " ++ str_exc e) ;;
       uraise e).

Definition get_image (filename subfolder folder_type base_url api_key : string)
  : U string :=
  ulog LInfo "get_image" ;;
  let data := dict_lit [("filename", filename);
                        ("subfolder", subfolder);
                        ("type", folder_type)] in
  let url_values := urlencode data in
  let req :=
    mkUrlRequest (base_url ++ "/view?" ++ url_values) None
      (dict_update default_headers
         [("Authorization", "Bearer " ++ api_key)]) in
  urlopen_read req.

Definition get_image_url (filename subfolder folder_type base_url : string)
  : U string :=
  ulog LInfo "get_image" ;;
  let data := dict_lit [("filename", filename);
                        ("subfolder", subfolder);
                        ("type", folder_type)] in
  let url_values := urlencode data in
  uret (base_url ++ "/view?" ++ url_values).

Definition get_history (prompt_id base_url api_key : string) : U json :=
  ulog LInfo "get_history" ;;
  let req :=
    mkUrlRequest (base_url ++ "/history/" ++ prompt_id) None
      (dict_update default_headers
         [("Authorization", "Bearer " ++ api_key)]) in
  response <- urlopen_read req ;;
  ulift (json_loads response).

(** The placeholder: it logs and returns an empty list. *)
Definition get_images {W : Type} (ws : W) (prompt : json)
    (client_id base_url api_key : string) : U json :=
  ulog LInfo "get_images" ;;
  uret (JArr []).

End Library.

End Legacy.

(** ** Facts about the model *)

Module Facts.
Import Py Http Swarmui Protocol.

Lemma append_eqb_prefix (b x y : string) :
  ((b ++ x) =? (b ++ y))%string = (x =? y)%string.
Proof.
  induction b as [|c b IH]; simpl; [reflexivity|].
  now rewrite Ascii.eqb_refl.
Qed.

Lemma session_post_is_session (b k : string) :
  is_session_post b (session_request b k) = true.
Proof. apply String.eqb_refl. Qed.

Lemma session_post_not_generation (b k : string) :
  is_generation_post b (session_request b k) = false.
Proof. unfold is_generation_post; simpl. now rewrite append_eqb_prefix. Qed.

Lemma generation_post_is_generation (b k : string) d :
  is_generation_post b (generation_request b k d) = true.
Proof. apply String.eqb_refl. Qed.

Lemma generation_post_not_session (b k : string) d :
  is_session_post b (generation_request b k d) = false.
Proof. unfold is_session_post; simpl. now rewrite append_eqb_prefix. Qed.

(** One run of [get_swarmui_session_id]: one POST, never an exception. *)
Lemma get_session_run (b k : string) (w : world) :
  exists w',
    get_swarmui_session_id b k w
    = (Ret (acquire_session_spec (w_server w (w_requests w) (session_request b k))), w')
    /\ w_server w' = w_server w
    /\ w_requests w' = (w_requests w ++ [session_request b k])%list.
Proof.
  unfold get_swarmui_session_id, try_except, bind, requests_post,
    raise_for_status, resp_json, lift, log_error, ret.
  fold (session_request b k).
  destruct (w_server w (w_requests w) (session_request b k)) as [e|r]; simpl.
  - eexists; repeat split.
  - destruct (resp_status_error r); simpl.
    + eexists; repeat split.
    + destruct (resp_body r) as [[]|]; simpl; eexists; repeat split.
Qed.

Local Open Scope py_scope.

(** A POST followed by [raise_for_status()] and [json()]. *)
Lemma post_json_run {A : Type} url headers body timeout (k : json -> M A) w :
  (resp <- requests_post url headers body timeout ;;
   raise_for_status resp ;;
   result <- resp_json resp ;;
   k result) w
  = match reply_json (w_server w (w_requests w)
                               (mkRequest url headers body timeout)) with
    | Raise e => (Raise e, sent w (mkRequest url headers body timeout))
    | Ret result => k result (sent w (mkRequest url headers body timeout))
    end.
Proof.
  unfold bind, requests_post, raise_for_status, resp_json, lift, reply_json.
  destruct (w_server w (w_requests w) _) as [e|r]; [reflexivity|].
  destruct (resp_status_error r); [reflexivity|].
  destruct (resp_body r); reflexivity.
Qed.

Lemma session_expired_run result w :
  session_expired result w = (expired_or_error result, w).
Proof.
  unfold session_expired, expired_or_error, bind, lift, ret.
  destruct (py_contains "error_id" result) as [[]|]; try reflexivity.
  destruct (py_getitem result "error_id"); reflexivity.
Qed.

Lemma image_list_run b result w :
  exists c, image_list b result w = (c, w)
            /\ settle c = images_or_error b result.
Proof.
  unfold image_list, images_or_error, bind, lift, ret.
  destruct (py_get result "images" (JArr [])) as [found|e];
    [|eexists; split; reflexivity].
  destruct (py_iter found) as [items|e]; [|eexists; split; reflexivity].
  destruct (collect_images b items []); eexists; split; reflexivity.
Qed.

Ltac finish_run :=
  unfold bind, log_exception, log_error, ret; simpl;
  eexists; repeat split; simpl;
  repeat match goal with H : w_server _ = _ |- _ => rewrite H end;
  repeat match goal with H : w_requests _ = _ |- _ => rewrite H end;
  repeat rewrite <- app_assoc; reflexivity.

(** [swarmui_generate_image] never raises, and its value and requests
    are those of [generate_run]. *)
Lemma generate_refines model payload client_id b k w :
  exists w',
    swarmui_generate_image model payload client_id b k w
    = (Ret (fst (generate_run model payload b k (w_server w) (w_requests w))), w')
    /\ w_server w' = w_server w
    /\ w_requests w'
       = (w_requests w ++ snd (generate_run model payload b k
                                 (w_server w) (w_requests w)))%list.
Proof.
  unfold swarmui_generate_image.
  unfold bind at 1. unfold log_info at 1.
  set (w0 := logged w INFO _).
  unfold bind at 1.
  destruct (get_session_run b k w0) as (w1 & E1 & S1 & R1).
  rewrite E1. simpl in S1, R1, E1 |- *.
  unfold generate_run.
  set (sid := acquire_session_spec _) in *.
  destruct (truthy sid) eqn:T1; simpl;
    [|unfold ret; eexists; repeat split; assumption].
  unfold try_except. rewrite post_json_run.
  rewrite S1, R1.
  fold (generation_request b k (data_of model payload sid)).
  set (g := generation_request _ _ _).
  destruct (reply_json _) as [result|e]; [|finish_run].
  unfold bind at 1. rewrite session_expired_run.
  destruct (expired_or_error result) as [[]|e]; [| |finish_run].
  - unfold bind at 1.
    destruct (get_session_run b k (sent w1 g)) as (w2 & E2 & S2 & R2).
    rewrite E2. simpl in S2, R2 |- *. rewrite S1 in S2 |- *. rewrite R1 in R2 |- *.
    repeat rewrite <- app_assoc in R2. repeat rewrite <- app_assoc.
    simpl in R2 |- *.
    set (sid2 := acquire_session_spec
                   (w_server w (w_requests w ++ [_; g])%list _)) in *.
    destruct (truthy sid2) eqn:T2; simpl; [|finish_run].
    rewrite post_json_run. rewrite S2, R2.
    fold (generation_request b k (dict_set (data_of model payload sid) "session_id" sid2)).
    set (g2 := generation_request _ _ _).
    destruct (reply_json _) as [result2|e]; [|finish_run].
    destruct (image_list_run b result2 (sent w2 g2)) as (c & Ec & Hc).
    rewrite Ec, <- Hc. destruct c; finish_run.
  - destruct (image_list_run b result (sent w1 g)) as (c & Ec & Hc).
    rewrite Ec, <- Hc. destruct c; finish_run.
Qed.

Lemma get_session_value b k w :
  fst (get_swarmui_session_id b k w)
  = Ret (acquire_session_spec (w_server w (w_requests w) (session_request b k))).
Proof. destruct (get_session_run b k w) as (w' & E & _). now rewrite E. Qed.

(** The loop on a list of strings: one reference per entry, in order. *)
Lemma collect_images_strings b ps acc :
  collect_images b (map JStr ps) acc
  = Ret (acc ++ map (fun p => image_ref (image_url b p)) ps)%list.
Proof.
  revert acc. induction ps as [|p ps IH]; intros acc; simpl.
  - now rewrite app_nil_r.
  - unfold image_url at 1.
    destruct (startswith p "data:"); [|destruct (startswith p "http")]; simpl;
      rewrite IH, <- app_assoc; reflexivity.
Qed.

Lemma images_or_error_strings b d ps :
  dict_get d "images" = Some (JArr (map JStr ps)) ->
  images_or_error b (JObj d)
  = data_dict (map (fun p => image_ref (image_url b p)) ps).
Proof.
  intros H. unfold images_or_error; simpl. rewrite H; simpl.
  now rewrite collect_images_strings.
Qed.

Lemma images_or_error_missing b d :
  dict_get d "images" = None -> images_or_error b (JObj d) = data_dict [].
Proof. intros H. unfold images_or_error; simpl. now rewrite H. Qed.

Lemma images_or_error_shape b result :
  (exists imgs, images_or_error b result = data_dict imgs)
  \/ (exists msg, images_or_error b result = error_dict msg).
Proof.
  unfold images_or_error.
  destruct (py_get result "images" (JArr [])) as [found|e]; [|right; eauto].
  destruct (py_iter found) as [items|e]; [|right; eauto].
  destruct (collect_images b items []); [left|right]; eauto.
Qed.

Lemma expired_or_error_signal d :
  expired_or_error (JObj d) = Ret (expiry_signal (JObj d)).
Proof.
  unfold expired_or_error, expiry_signal, py_contains, py_getitem, dict_has.
  destruct (dict_get d "error_id"); reflexivity.
Qed.

Lemma dict_has_set {V : Type} (d : list (string * V)) k' v k :
  dict_has (dict_set d k' v) k = ((k' =? k)%string || dict_has d k).
Proof.
  unfold dict_has.
  induction d as [|[k0 v0] d IH]; simpl.
  - destruct (k' =? k)%string; reflexivity.
  - destruct (k0 =? k')%string eqn:E0; simpl.
    + apply String.eqb_eq in E0; subst k0.
      destruct (k' =? k)%string; reflexivity.
    + destruct (k0 =? k)%string eqn:E1; [|exact IH].
      now rewrite orb_true_r.
Qed.

Lemma dict_get_set_other {V : Type} (d : list (string * V)) k' v k :
  (k' =? k)%string = false -> dict_get (dict_set d k' v) k = dict_get d k.
Proof.
  intros Hk. induction d as [|[k0 v0] d IH]; simpl.
  - now rewrite Hk.
  - destruct (k0 =? k')%string eqn:E0; simpl.
    + apply String.eqb_eq in E0; subst k0. now rewrite Hk.
    + now rewrite IH.
Qed.

(** The requests of one run: a session acquisition, then at most one
    generation POST, one more acquisition and one more generation POST. *)
Lemma generate_run_trace model payload b k srv h :
  exists sid sid2,
    let s := session_request b k in
    let d := data_of model payload sid in
    let g := generation_request b k d in
    let g2 := generation_request b k (dict_set d "session_id" sid2) in
    let tr := snd (generate_run model payload b k srv h) in
    tr = [s] \/ tr = [s; g] \/ tr = [s; g; s] \/ tr = [s; g; s; g2].
Proof.
  unfold generate_run.
  set (s := session_request b k).
  set (sid := acquire_session_spec (srv h s)).
  set (g := generation_request b k (data_of model payload sid)).
  set (sid2 := acquire_session_spec (srv (h ++ [s; g])%list s)).
  exists sid, sid2. cbv zeta.
  destruct (negb (truthy sid)); [now left|].
  destruct (reply_json (srv (h ++ [s])%list g)) as [result|e];
    [|now right; left].
  destruct (expired_or_error result) as [[]|e]; try (now right; left).
  destruct (negb (truthy sid2)); [now right; right; left|].
  destruct (reply_json _); now right; right; right.
Qed.

(** One run of [list_swarmui_models] and of [select_swarmui_model]: one
    POST, never an exception, the sentinel on a failed POST. *)
Lemma list_models_run b k path depth subtype sortBy allowRemote sortReverse w :
  exists v w',
    list_swarmui_models b k path depth subtype sortBy allowRemote sortReverse w
    = (Ret v, w')
    /\ w_requests w'
       = (w_requests w
            ++ [list_models_request b k path depth subtype sortBy
                                    allowRemote sortReverse])%list
    /\ (transport_failure
          (w_server w (w_requests w)
             (list_models_request b k path depth subtype sortBy
                                  allowRemote sortReverse)) = true ->
        v = JArr []).
Proof.
  unfold list_swarmui_models, try_except. rewrite post_json_run.
  unfold transport_failure.
  fold (list_models_request b k path depth subtype sortBy allowRemote
          sortReverse).
  destruct (reply_json _) as [data|e].
  - unfold lift. destruct (py_get data "files" (JArr [])); simpl;
      do 2 eexists; repeat split; discriminate.
  - simpl. do 2 eexists; repeat split.
Qed.

Lemma select_model_run b k model_path backendId w :
  exists v w',
    select_swarmui_model b k model_path backendId w = (Ret v, w')
    /\ w_requests w'
       = (w_requests w ++ [select_model_request b k model_path backendId])%list
    /\ (transport_failure
          (w_server w (w_requests w)
             (select_model_request b k model_path backendId)) = true ->
        v = JBool false).
Proof.
  unfold select_swarmui_model, try_except. rewrite post_json_run.
  unfold transport_failure.
  fold (select_model_request b k model_path backendId).
  destruct (reply_json _) as [data|e].
  - unfold lift. destruct (py_get data "success" (JBool false)); simpl;
      do 2 eexists; repeat split; discriminate.
  - simpl. do 2 eexists; repeat split.
Qed.

(** The session and generation requests carry the fixed [User-Agent],
    and [Authorization] exactly when the API key is not empty. *)
Lemma session_headers_ok k :
  dict_get (session_headers k) "User-Agent" = Some "Mozilla/5.0"
  /\ dict_get (session_headers k) "Authorization"
     = if nonempty k then Some ("Bearer " ++ k) else None.
Proof. unfold session_headers. destruct (nonempty k); split; reflexivity. Qed.

Lemma generate_requests_headers model payload b k srv h :
  Forall (fun r => req_headers r = session_headers k)
         (snd (generate_run model payload b k srv h)).
Proof.
  destruct (generate_run_trace model payload b k srv h) as (sid & sid2 & H).
  cbv zeta in H.
  destruct H as [-> | [-> | [-> | ->]]]; repeat constructor.
Qed.

Lemma nonempty_true s : nonempty s = true <-> s <> "".
Proof.
  unfold nonempty. rewrite negb_true_iff. apply String.eqb_neq.
Qed.

(** The keys of [data] that depend on the request. *)
Lemma data_of_keys model payload sid :
  dict_has (data_of model payload sid) "negative_prompt"
  = has_negative_prompt payload
  /\ dict_has (data_of model payload sid) "seed" = has_seed payload
  /\ dict_has (data_of model payload sid) "model" = nonempty model
  /\ dict_get (data_of model payload sid) "steps"
     = Some (json_of_option JInt (Form.steps payload)).
Proof.
  unfold data_of, raw_input_of, has_negative_prompt, has_seed.
  destruct payload as [p np wd ht cnt st sd md]; simpl.
  destruct np as [np|]; [destruct (nonempty np)|];
    destruct sd; destruct (nonempty model); repeat split.
Qed.

Lemma payload_keys_data_of model payload sid :
  payload_keys model payload (data_of model payload sid).
Proof.
  destruct (data_of_keys model payload sid) as (Hn & Hs & Hm & Hst).
  unfold payload_keys. rewrite Hn, Hs, Hm, Hst.
  unfold has_negative_prompt, has_seed.
  repeat split; try apply nonempty_true.
  - destruct (Form.negative_prompt payload) as [np|]; [|discriminate].
    intros H. exists np. split; [reflexivity|now apply nonempty_true].
  - intros (np & -> & H). now apply nonempty_true.
  - destruct (Form.seed payload); [discriminate|discriminate].
  - destruct (Form.seed payload); [reflexivity|congruence].
Qed.

Lemma payload_keys_set_session model payload data sid :
  payload_keys model payload data ->
  payload_keys model payload (dict_set data "session_id" sid).
Proof.
  unfold payload_keys. rewrite !dict_has_set; simpl.
  now rewrite dict_get_set_other by reflexivity.
Qed.

Lemma generate_run_value model payload b k srv h :
  (exists imgs, fst (generate_run model payload b k srv h) = data_dict imgs)
  \/ (exists msg, fst (generate_run model payload b k srv h) = error_dict msg).
Proof.
  unfold generate_run.
  destruct (negb (truthy _)); [right; simpl; eauto|].
  destruct (reply_json _) as [result|e]; [|right; simpl; eauto].
  destruct (expired_or_error result) as [[]|e]; [| |right; simpl; eauto].
  - destruct (negb (truthy _)); [right; simpl; eauto|].
    destruct (reply_json _) as [result2|e]; [|right; simpl; eauto].
    apply images_or_error_shape.
  - apply images_or_error_shape.
Qed.

(** With a truthy session id the run sends the session POST and then
    the generation POST that carries [data_of]. *)
Lemma generate_run_sends_payload model payload b k srv h sid :
  acquire_session_spec (srv h (session_request b k)) = sid ->
  truthy sid = true ->
  exists rest,
    snd (generate_run model payload b k srv h)
    = session_request b k
        :: generation_request b k (data_of model payload sid) :: rest.
Proof.
  intros Hsid Ht. unfold generate_run. rewrite Hsid, Ht.
  simpl negb. cbv iota.
  destruct (reply_json _) as [result|e]; [|eexists; reflexivity].
  destruct (expired_or_error result) as [[]|e]; try (eexists; reflexivity).
  destruct (negb (truthy _)); [eexists; reflexivity|].
  destruct (reply_json _); eexists; reflexivity.
Qed.
End Facts.

Module SwarmuiSpec.
Import Py Http Swarmui Protocol Scenario Facts.

(** C1: when the first generation POST succeeds at the HTTP level and
    its body carries [error_id == "invalid_session_id"], the call goes on
    with exactly one more session acquisition and at most one more
    generation POST; if that second acquisition returns null the result
    is the retry error and the second acquisition is the last request. *)
Theorem retry_once_on_expired_session
    model payload client_id b k w sid resp d :
  fst (get_swarmui_session_id b k w) = Ret sid ->
  truthy sid = true ->
  w_server w (w_requests w ++ [session_request b k])
           (generation_request b k (data_of model payload sid))
  = PostReturns resp ->
  resp_status_error resp = None ->
  resp_body resp = Ret (JObj d) ->
  dict_get d "error_id" = Some (JStr "invalid_session_id") ->
  exists v w' tr,
    swarmui_generate_image model payload client_id b k w = (Ret v, w')
    /\ w_requests w'
       = (w_requests w
            ++ [session_request b k;
                generation_request b k (data_of model payload sid)]
            ++ tr)%list
    /\ count_posts (is_session_post b) tr = 1%nat
    /\ (count_posts (is_generation_post b) tr <= 1)%nat
    /\ (fst (get_swarmui_session_id b k
               (sent (sent w (session_request b k))
                     (generation_request b k (data_of model payload sid))))
        = Ret JNull ->
        v = error_dict "Could not obtain SwarmUI session id (retry)"
        /\ tr = [session_request b k]).
Proof.
  intros Hsid Ht Hpost Hst Hbody Herr.
  rewrite get_session_value in Hsid. injection Hsid as Hsid.
  rewrite get_session_value. simpl w_server. simpl w_requests.
  rewrite <- app_assoc. simpl app.
  destruct (generate_refines model payload client_id b k w) as (w' & E & _ & R).
  destruct (generate_run _ _ _ _ _ _) as [v tr] eqn:G. simpl in E, R.
  exists v, w'. unfold generate_run in G.
  rewrite Hsid, Ht in G; simpl negb in G; cbv iota in G.
  rewrite Hpost in G. unfold reply_json at 1 in G. rewrite Hst, Hbody in G.
  rewrite expired_or_error_signal in G. unfold expiry_signal in G.
  rewrite Herr in G. simpl is_str in G. cbv iota in G.
  set (s := session_request b k) in *.
  set (g := generation_request b k (data_of model payload sid)) in *.
  set (sid2 := acquire_session_spec (w_server w (w_requests w ++ [s; g])%list s)) in *.
  destruct (truthy sid2) eqn:T2; simpl negb in G; cbv iota in G.
  - set (g2 := generation_request b k _) in G.
    exists [s; g2].
    assert (tr = [s; g; s; g2]) as ->
      by (revert G; destruct (reply_json _); intros G;
          injection G as _ <-; reflexivity).
    split; [exact E|]; split; [exact R|].
    unfold count_posts; cbn [filter]; subst s g2.
    rewrite session_post_is_session, generation_post_not_session,
      session_post_not_generation, generation_post_is_generation.
    split; [reflexivity|]; split; [simpl; lia|].
    intros Hn; injection Hn as Hn; rewrite Hn in T2; discriminate.
  - injection G as <- <-. exists [s].
    split; [exact E|]; split; [exact R|].
    unfold count_posts; cbn [filter]; subst s.
    rewrite session_post_is_session, session_post_not_generation.
    split; [reflexivity|]; split; [simpl; lia|]. intros _. split; reflexivity.
Qed.


Lemma retry_once_on_expired_session_witness :
  let w := fresh (scripted [session_ok "s1"; expired; ok (JObj [])]) in
  let s := session_request svc "" in
  let g := generation_request svc "" (data_of "" cat (JStr "s1")) in
  exists v w' tr,
    swarmui_generate_image "" cat "c" svc "" w = (Ret v, w')
    /\ w_requests w' = (w_requests w ++ [s; g] ++ tr)%list
    /\ count_posts (is_session_post svc) tr = 1%nat
    /\ (count_posts (is_generation_post svc) tr <= 1)%nat
    /\ (fst (get_swarmui_session_id svc "" (sent (sent w s) g)) = Ret JNull ->
        v = error_dict "Could not obtain SwarmUI session id (retry)"
        /\ tr = [s]).
Proof.
  apply (retry_once_on_expired_session "" cat "c" svc ""
           (fresh (scripted [session_ok "s1"; expired; ok (JObj [])]))
           (JStr "s1")
           (mkResponse None (Ret (JObj [("error_id", JStr "invalid_session_id")])))
           [("error_id", JStr "invalid_session_id")]);
    reflexivity.
Defined.

(** C2: whatever the server answers, one call sends at most two session
    acquisitions and at most two generation POSTs, and nothing else. *)
Theorem at_most_two_rounds model payload client_id b k w :
  exists v w' tr,
    swarmui_generate_image model payload client_id b k w = (Ret v, w')
    /\ w_requests w' = (w_requests w ++ tr)%list
    /\ (count_posts (is_session_post b) tr <= 2)%nat
    /\ (count_posts (is_generation_post b) tr <= 2)%nat
    /\ (count_posts (is_session_post b) tr
        + count_posts (is_generation_post b) tr)%nat = length tr.
Proof.
  destruct (generate_refines model payload client_id b k w) as (w' & E & _ & R).
  do 3 eexists. split; [exact E|]. split; [exact R|].
  destruct (generate_run_trace model payload b k (w_server w) (w_requests w))
    as (sid & sid2 & H).
  cbv zeta in H.
  destruct H as [-> | [-> | [-> | ->]]];
    unfold count_posts; cbn [filter];
    rewrite ?session_post_is_session, ?generation_post_not_session,
      ?session_post_not_generation, ?generation_post_is_generation;
    simpl; lia.
Qed.

(** A server that calls every session expired gets two rounds, no more. *)
Example always_expired_two_rounds :
  let run := swarmui_generate_image "m" cat "c" svc "key"
               (fresh (always_expired svc)) in
  fst run = Ret (data_dict [])
  /\ count_posts (is_session_post svc) (w_requests (snd run)) = 2%nat
  /\ count_posts (is_generation_post svc) (w_requests (snd run)) = 2%nat
  /\ length (w_requests (snd run)) = 4%nat.
Proof. repeat split. Qed.

(** C3: when the initial session acquisition returns null, the call
    returns the session error and sends no generation POST. *)
Theorem no_session_no_generation model payload client_id b k w :
  fst (get_swarmui_session_id b k w) = Ret JNull ->
  exists w' tr,
    swarmui_generate_image model payload client_id b k w
    = (Ret (error_dict "Could not obtain SwarmUI session id"), w')
    /\ w_requests w' = (w_requests w ++ tr)%list
    /\ count_posts (is_generation_post b) tr = 0%nat.
Proof.
  intros Hsid. rewrite get_session_value in Hsid. injection Hsid as Hsid.
  destruct (generate_refines model payload client_id b k w) as (w' & E & _ & R).
  revert E R. unfold generate_run. rewrite Hsid. simpl. intros E R.
  do 2 eexists. split; [exact E|]. split; [exact R|].
  unfold count_posts; cbn [filter].
  now rewrite session_post_not_generation.
Qed.

Lemma no_session_no_generation_witness :
  let w := fresh (scripted [http_error "401 Client Error: Unauthorized"]) in
  fst (get_swarmui_session_id svc "key" w) = Ret JNull
  /\ exists w' tr,
      swarmui_generate_image "m" cat "c" svc "key" w
      = (Ret (error_dict "Could not obtain SwarmUI session id"), w')
      /\ w_requests w' = (w_requests w ++ tr)%list
      /\ count_posts (is_generation_post svc) tr = 0%nat.
Proof.
  split; [reflexivity|].
  apply (no_session_no_generation "m" cat "c" svc "key"
           (fresh (scripted [http_error "401 Client Error: Unauthorized"]))).
  reflexivity.
Defined.


(** C4, as stated, fails: an entry that starts with [http] without
    being a scheme is a relative path for the three-way rule, which
    joins it to the base url; the code returns it unchanged. *)
Lemma relative_http_path_not_joined :
  let w := fresh (scripted [session_ok "s1";
                            ok (JObj [("images", JArr [JStr "httpdocs/1.png"])])]) in
  startswith "httpdocs/1.png" "http://" = false
  /\ startswith "httpdocs/1.png" "https://" = false
  /\ startswith "httpdocs/1.png" "data:" = false
  /\ spec_image_url svc "httpdocs/1.png" = "https://svc.example/httpdocs/1.png"
  /\ fst (swarmui_generate_image "" cat "c" svc "" w)
     = Ret (data_dict [image_ref "httpdocs/1.png"]).
Proof. repeat split. Qed.

(** C4, amended: for an image list of strings the result holds one
    reference per entry, in order; an entry starting with [data:] or with
    [http] is returned unchanged, any other [p] as [base_url/p]. *)
Theorem image_urls_resolved b d ps w :
  dict_get d "images" = Some (JArr (map JStr ps)) ->
  image_list b (JObj d) w
  = (Ret (data_dict
            (map (fun p =>
                    image_ref (if startswith p "data:" then p
                               else if startswith p "http" then p
                               else b ++ "/" ++ p))
                 ps)), w).
Proof.
  intros H.
  unfold image_list, bind, lift, ret; simpl. rewrite H; simpl.
  now rewrite collect_images_strings.
Qed.

Lemma image_urls_resolved_witness :
  image_list svc
    (JObj [("images", JArr [JStr "outputs/1.png";
                            JStr "data:image/png;base64,AAAA";
                            JStr "http://cdn.example/2.png";
                            JStr "https://cdn.example/3.png"])])
    (fresh (scripted []))
  = (Ret (data_dict [image_ref "https://svc.example/outputs/1.png";
                     image_ref "data:image/png;base64,AAAA";
                     image_ref "http://cdn.example/2.png";
                     image_ref "https://cdn.example/3.png"]),
     fresh (scripted [])).
Proof.
  apply (image_urls_resolved svc
           [("images", JArr (map JStr ["outputs/1.png";
                                       "data:image/png;base64,AAAA";
                                       "http://cdn.example/2.png";
                                       "https://cdn.example/3.png"]))]
           ["outputs/1.png"; "data:image/png;base64,AAAA";
            "http://cdn.example/2.png"; "https://cdn.example/3.png"]
           (fresh (scripted []))).
  reflexivity.
Defined.

(** C5, as stated, fails: with a session and a generation POST that
    succeeds without expiry signal, an image list holding an entry that
    is not a string, or a body that is not an object, gives an error
    result, not an image list. *)
Lemma malformed_image_list_is_error :
  let w1 := fresh (scripted [session_ok "s1";
                             ok (JObj [("images",
                                        JArr [JStr "outputs/1.png"; JNull])])]) in
  let w2 := fresh (scripted [session_ok "s1"; ok (JArr [])]) in
  fst (get_swarmui_session_id svc "" w1) = Ret (JStr "s1")
  /\ expiry_signal (JObj [("images", JArr [JStr "outputs/1.png"; JNull])])
     = false
  /\ fst (swarmui_generate_image "" cat "c" svc "" w1)
     = Ret (error_dict "'NoneType' object has no attribute 'startswith'")
  /\ fst (get_swarmui_session_id svc "" w2) = Ret (JStr "s1")
  /\ expiry_signal (JArr []) = false
  /\ fst (swarmui_generate_image "" cat "c" svc "" w2)
     = Ret (error_dict "'list' object has no attribute 'get'").
Proof. repeat split. Qed.

(** C5, amended: if session acquisition succeeds and the generation POST
    succeeds with a JSON object that carries no expiry signal, then an
    image list of strings gives [{data: images}] with one reference per
    entry, and an object without the image-list field gives [{data: []}]. *)
Theorem generation_success model payload client_id b k w sid resp d :
  fst (get_swarmui_session_id b k w) = Ret sid ->
  truthy sid = true ->
  w_server w (w_requests w ++ [session_request b k])
           (generation_request b k (data_of model payload sid))
  = PostReturns resp ->
  resp_status_error resp = None ->
  resp_body resp = Ret (JObj d) ->
  expiry_signal (JObj d) = false ->
  (forall ps,
      dict_get d "images" = Some (JArr (map JStr ps)) ->
      exists images w',
        swarmui_generate_image model payload client_id b k w
        = (Ret (data_dict images), w')
        /\ images = map (fun p => image_ref (image_url b p)) ps
        /\ length images = length ps)
  /\ (dict_get d "images" = None ->
      exists w',
        swarmui_generate_image model payload client_id b k w
        = (Ret (data_dict []), w')).
Proof.
  intros Hsid Ht Hpost Hst Hbody Hexp.
  rewrite get_session_value in Hsid. injection Hsid as Hsid.
  destruct (generate_refines model payload client_id b k w) as (w' & E & _ & _).
  revert E. unfold generate_run.
  rewrite Hsid, Ht; simpl negb; cbv iota.
  rewrite Hpost. unfold reply_json. rewrite Hst, Hbody.
  rewrite expired_or_error_signal, Hexp. simpl fst. intros E.
  split.
  - intros ps Hps. rewrite (images_or_error_strings b d ps Hps) in E.
    do 2 eexists. split; [exact E|]. split; [reflexivity|].
    apply length_map.
  - intros Hnone. rewrite (images_or_error_missing b d Hnone) in E.
    eexists; exact E.
Qed.

Lemma generation_success_witness :
  let w := fresh (scripted [session_ok "s1";
                            ok (JObj [("images", JArr [JStr "outputs/1.png"])])]) in
  exists images w',
    swarmui_generate_image "" cat "c" svc "" w = (Ret (data_dict images), w')
    /\ images = map (fun p => image_ref (image_url svc p)) ["outputs/1.png"]
    /\ length images = 1%nat.
Proof.
  destruct (generation_success "" cat "c" svc ""
              (fresh (scripted [session_ok "s1";
                                ok (JObj [("images", JArr [JStr "outputs/1.png"])])]))
              (JStr "s1")
              (mkResponse None
                 (Ret (JObj [("images", JArr [JStr "outputs/1.png"])])))
              [("images", JArr [JStr "outputs/1.png"])]
              eq_refl eq_refl eq_refl eq_refl eq_refl eq_refl) as [H _].
  exact (H ["outputs/1.png"] eq_refl).
Defined.

(** The example of the specification: one relative path, one image. *)
Example generation_example :
  fst (swarmui_generate_image "" cat "c" svc ""
         (fresh (scripted [session_ok "s1";
                           ok (JObj [("images", JArr [JStr "outputs/1.png"])])])))
  = Ret (data_dict [image_ref "https://svc.example/outputs/1.png"]).
Proof. reflexivity. Qed.


(** C6: every call returns a dict with exactly one of the keys [data]
    and [error]; without [error] the value of [data] is a list, with
    [error] the value is a string. *)
Theorem result_data_xor_error model payload client_id b k w :
  exists d w',
    swarmui_generate_image model payload client_id b k w = (Ret (JObj d), w')
    /\ xorb (dict_has d "data") (dict_has d "error") = true
    /\ (dict_has d "error" = false ->
        exists images, dict_get d "data" = Some (JArr images))
    /\ (dict_has d "error" = true ->
        exists msg, dict_get d "error" = Some (JStr msg)).
Proof.
  destruct (generate_refines model payload client_id b k w) as (w' & E & _ & _).
  destruct (generate_run_value model payload b k (w_server w) (w_requests w))
    as [[images H] | [msg H]]; rewrite H in E; eexists; exists w';
    (split; [exact E|]); simpl; repeat split; eauto; discriminate.
Qed.

(** C7: session acquisition never raises and sends one POST; it returns
    null when the POST raises, the status is an error, the body does not
    parse or lacks the session field, and the field's value otherwise. *)
Theorem session_acquisition_total b k w :
  exists v w',
    get_swarmui_session_id b k w = (Ret v, w')
    /\ w_requests w' = (w_requests w ++ [session_request b k])%list
    /\ v = acquire_session_spec (w_server w (w_requests w) (session_request b k))
    /\ (transport_failure (w_server w (w_requests w) (session_request b k)) = true ->
        v = JNull)
    /\ (forall d,
          reply_json (w_server w (w_requests w) (session_request b k))
          = Ret (JObj d) ->
          v = match dict_get d "session_id" with
              | Some sid => sid
              | None => JNull
              end).
Proof.
  destruct (get_session_run b k w) as (w' & E & _ & R).
  do 2 eexists. split; [exact E|]. split; [exact R|]. split; [reflexivity|].
  unfold transport_failure, reply_json, acquire_session_spec.
  destruct (w_server w (w_requests w) (session_request b k)) as [e|r].
  - split; [reflexivity|discriminate].
  - destruct (resp_status_error r); [split; [reflexivity|discriminate]|].
    destruct (resp_body r) as [body|e]; [|split; [reflexivity|discriminate]].
    split; [discriminate|]. intros d Hd. injection Hd as ->. reflexivity.
Qed.

(** C8 fails on the code: with an empty API key, the requests of
    [list_swarmui_models] and [select_swarmui_model] carry no
    [User-Agent] header and carry [Authorization: Bearer ] all the same. *)
Theorem model_calls_headers b path depth subtype sortBy allowRemote
    sortReverse model_path backendId w :
  (exists v w' r,
      list_swarmui_models b "" path depth subtype sortBy allowRemote
                          sortReverse w = (Ret v, w')
      /\ w_requests w' = (w_requests w ++ [r])%list
      /\ dict_get (req_headers r) "User-Agent" = None
      /\ dict_get (req_headers r) "Authorization" = Some "Bearer ")
  /\ (exists v w' r,
        select_swarmui_model b "" model_path backendId w = (Ret v, w')
        /\ w_requests w' = (w_requests w ++ [r])%list
        /\ dict_get (req_headers r) "User-Agent" = None
        /\ dict_get (req_headers r) "Authorization" = Some "Bearer ").
Proof.
  split.
  - destruct (list_models_run b "" path depth subtype sortBy allowRemote
                sortReverse w) as (v & w' & E & R & _).
    exists v, w'; eexists. split; [exact E|]. split; [exact R|].
    split; reflexivity.
  - destruct (select_model_run b "" model_path backendId w)
      as (v & w' & E & R & _).
    exists v, w'; eexists. split; [exact E|]. split; [exact R|].
    split; reflexivity.
Qed.

(** C9: [list_swarmui_models] and [select_swarmui_model] never raise;
    when the POST raises, the status is an error or the body does not
    parse, the first returns the empty list and the second false. *)
Theorem list_and_select_never_raise b k path depth subtype sortBy allowRemote
    sortReverse model_path backendId w :
  (exists v w',
      list_swarmui_models b k path depth subtype sortBy allowRemote
                          sortReverse w = (Ret v, w')
      /\ (transport_failure
            (w_server w (w_requests w)
               (list_models_request b k path depth subtype sortBy
                                    allowRemote sortReverse)) = true ->
          v = JArr []))
  /\ (exists v w',
        select_swarmui_model b k model_path backendId w = (Ret v, w')
        /\ (transport_failure
              (w_server w (w_requests w)
                 (select_model_request b k model_path backendId)) = true ->
            v = JBool false)).
Proof.
  split.
  - destruct (list_models_run b k path depth subtype sortBy allowRemote
                sortReverse w) as (v & w' & E & _ & H).
    exists v, w'. split; [exact E|exact H].
  - destruct (select_model_run b k model_path backendId w)
      as (v & w' & E & _ & H).
    exists v, w'. split; [exact E|exact H].
Qed.

(** C10: the generation payload has the key [negative_prompt] exactly
    when the request's negative prompt is a non-empty string, [seed]
    exactly when the seed is not null, [model] exactly when the model
    argument is non-empty, and always [steps], null included.  A call
    that gets a truthy session id builds this payload and sends it: its
    requests start with the session POST and the generation POST that
    carries the payload; and every generation POST a call sends, the
    retry included, has these keys. *)
Theorem generation_payload_keys model payload :
  (forall sid, payload_keys model payload (data_of model payload sid))
  /\ (forall client_id b k w,
        exists v w' tr,
          swarmui_generate_image model payload client_id b k w = (Ret v, w')
          /\ w_requests w' = (w_requests w ++ tr)%list
          /\ Forall (fun r =>
                       is_generation_post b r = true ->
                       exists data,
                         req_json r = JObj data
                         /\ payload_keys model payload data) tr
          /\ (forall sid,
                fst (get_swarmui_session_id b k w) = Ret sid ->
                truthy sid = true ->
                exists data rest,
                  tr = session_request b k
                         :: generation_request b k data :: rest
                  /\ data = data_of model payload sid
                  /\ req_json (generation_request b k data) = JObj data
                  /\ is_generation_post b (generation_request b k data) = true
                  /\ payload_keys model payload data)).
Proof.
  split; [intros sid; apply payload_keys_data_of|].
  intros client_id b k w.
  destruct (generate_refines model payload client_id b k w) as (w' & E & _ & R).
  do 3 eexists. split; [exact E|]. split; [exact R|].
  split.
  - destruct (generate_run_trace model payload b k (w_server w) (w_requests w))
      as (sid & sid2 & H).
    cbv zeta in H.
    assert (Hs : is_generation_post b (session_request b k) = true ->
                 exists data, req_json (session_request b k) = JObj data
                              /\ payload_keys model payload data)
      by (rewrite session_post_not_generation; discriminate).
    assert (Hg : exists data,
               req_json (generation_request b k (data_of model payload sid))
               = JObj data /\ payload_keys model payload data)
      by (eexists; split; [reflexivity|apply payload_keys_data_of]).
    assert (Hg2 : exists data,
               req_json (generation_request b k
                           (dict_set (data_of model payload sid)
                                     "session_id" sid2))
               = JObj data /\ payload_keys model payload data)
      by (eexists; split;
          [reflexivity
          |apply payload_keys_set_session, payload_keys_data_of]).
    destruct H as [-> | [-> | [-> | ->]]]; repeat constructor; auto.
  - intros sid Hsid Ht.
    rewrite get_session_value in Hsid. injection Hsid as Hsid.
    destruct (generate_run_sends_payload model payload b k (w_server w)
                (w_requests w) sid Hsid Ht) as (rest & Hrest).
    exists (data_of model payload sid), rest.
    split; [exact Hrest|]. split; [reflexivity|]. split; [reflexivity|].
    split; [apply generation_post_is_generation|apply payload_keys_data_of].
Qed.

(** A request with a negative prompt, a seed and null steps, sent with a
    model: the first generation POST carries all three optional keys. *)
Lemma generation_payload_keys_witness :
  let payload := Form.mk "cat" (Some "blurry") 512 512 1 None (Some 7) None in
  let w := fresh (scripted [session_ok "s1"; ok (JObj [])]) in
  exists data rest,
    w_requests (snd (swarmui_generate_image "m" payload "c" svc "key" w))
    = session_request svc "key" :: generation_request svc "key" data :: rest
    /\ dict_get data "negative_prompt" = Some (JStr "blurry")
    /\ dict_get data "seed" = Some (JInt 7)
    /\ dict_get data "model" = Some (JStr "m")
    /\ dict_get data "steps" = Some JNull.
Proof.
  cbv zeta.
  destruct (generation_payload_keys "m"
              (Form.mk "cat" (Some "blurry") 512 512 1 None (Some 7) None))
    as [_ H].
  destruct (H "c" svc "key"
              (fresh (scripted [session_ok "s1"; ok (JObj [])])))
    as (v & w' & tr & E & R & _ & Hsent).
  destruct (Hsent (JStr "s1") eq_refl eq_refl)
    as (data & rest & Htr & Hdata & _).
  exists data, rest. rewrite E. simpl snd. rewrite R, Htr, Hdata.
  repeat split.
Defined.

End SwarmuiSpec.

(** ** Further facts about the model *)

Module ExtraFacts.
Import Py Http Swarmui Protocol Facts.

Lemma dict_get_set_same {V : Type} (d : list (string * V)) k v :
  dict_get (dict_set d k v) k = Some v.
Proof.
  induction d as [|[k0 v0] d IH]; simpl.
  - now rewrite String.eqb_refl.
  - destruct (k0 =? k)%string eqn:E; simpl; rewrite E; [reflexivity|exact IH].
Qed.

Lemma dict_get_set_neq {V : Type} (d : list (string * V)) k' v k :
  k <> k' -> dict_get (dict_set d k' v) k = dict_get d k.
Proof.
  intros H. apply dict_get_set_other. apply String.eqb_neq. congruence.
Qed.

(** Assigning to a key the dict has keeps the keys and their order. *)
Lemma dict_set_keys {V : Type} (d : list (string * V)) k v :
  dict_has d k = true -> map fst (dict_set d k v) = map fst d.
Proof.
  unfold dict_has. induction d as [|[k0 v0] d IH]; simpl; [discriminate|].
  destruct (k0 =? k)%string eqn:E; simpl; [reflexivity|].
  intros H. now rewrite IH.
Qed.

Lemma data_of_has_session model payload sid :
  dict_has (data_of model payload sid) "session_id" = true.
Proof.
  unfold data_of, raw_input_of.
  destruct payload as [p np wd ht cnt st sd md]; simpl.
  destruct np as [np|]; [destruct (nonempty np)|];
    destruct sd; destruct (nonempty model); reflexivity.
Qed.

Lemma prefix_append (p s t : string) :
  String.prefix p s = true -> String.prefix p (s ++ t) = true.
Proof.
  revert s. induction p as [|c p IH]; intros [|c' s]; simpl;
    try discriminate.
  - now destruct t.
  - reflexivity.
  - destruct (Ascii.ascii_dec c c'); [apply IH|discriminate].
Qed.


(** The run once the first generation POST came back with the expiry
    signal. *)
Lemma generate_run_after_expiry model payload b k srv h sid d :
  acquire_session_spec (srv h (session_request b k)) = sid ->
  truthy sid = true ->
  reply_json (srv (h ++ [session_request b k])%list
                  (generation_request b k (data_of model payload sid)))
  = Ret (JObj d) ->
  expiry_signal (JObj d) = true ->
  generate_run model payload b k srv h
  = let s := session_request b k in
    let g := generation_request b k (data_of model payload sid) in
    let sid2 := acquire_session_spec (srv (h ++ [s; g])%list s) in
    if negb (truthy sid2)
    then (error_dict "Could not obtain SwarmUI session id (retry)", [s; g; s])
    else
      let g2 := generation_request b k
                  (dict_set (data_of model payload sid) "session_id" sid2) in
      match reply_json (srv (h ++ [s; g; s])%list g2) with
      | Raise e => (error_dict (str_exc e), [s; g; s; g2])
      | Ret result2 => (images_or_error b result2, [s; g; s; g2])
      end.
Proof.
  intros Hsid Ht Hrep Hexp. unfold generate_run.
  rewrite Hsid, Ht. simpl negb. cbv iota.
  rewrite Hrep, expired_or_error_signal, Hexp. reflexivity.
Qed.

Lemma get_session_value_after b k w s g :
  fst (get_swarmui_session_id b k (sent (sent w s) g))
  = Ret (acquire_session_spec
           (w_server w (w_requests w ++ [s; g])%list (session_request b k))).
Proof.
  rewrite get_session_value. simpl. now rewrite <- app_assoc.
Qed.




(** The requests of one run, with the session ids they carry. *)
Lemma generate_run_shape model payload b k srv h :
  exists sid sid2,
    let s := session_request b k in
    let g := generation_request b k (data_of model payload sid) in
    let g2 := generation_request b k
                (dict_set (data_of model payload sid) "session_id" sid2) in
    let tr := snd (generate_run model payload b k srv h) in
    tr = [s]
    \/ (truthy sid = true
        /\ (tr = [s; g] \/ tr = [s; g; s]
            \/ (truthy sid2 = true /\ tr = [s; g; s; g2]))).
Proof.
  unfold generate_run.
  set (s := session_request b k).
  set (sid := acquire_session_spec (srv h s)).
  set (g := generation_request b k (data_of model payload sid)).
  set (sid2 := acquire_session_spec (srv (h ++ [s; g])%list s)).
  exists sid, sid2. cbv zeta.
  destruct (truthy sid); simpl negb; cbv iota; [right; split; [reflexivity|]
                                               |now left].
  destruct (reply_json (srv (h ++ [s])%list g)) as [result|e];
    [|now left].
  destruct (expired_or_error result) as [[]|e]; try (now left).
  destruct (truthy sid2); simpl negb; cbv iota; [|now right; left].
  right; right. split; [reflexivity|].
  destruct (reply_json _); reflexivity.
Qed.


Lemma image_url_fixed b p :
  startswith b "http" = true ->
  image_url b (image_url b p) = image_url b p.
Proof.
  intros Hb. unfold image_url at 2.
  destruct (startswith p "data:") eqn:Ed.
  - unfold image_url. now rewrite Ed.
  - destruct (startswith p "http") eqn:Eh.
    + unfold image_url. now rewrite Ed, Eh.
    + unfold image_url.
      assert (Hq : startswith (b ++ "/" ++ p) "http" = true)
        by (unfold startswith in *; apply prefix_append; exact Hb).
      rewrite Hq, Ed, Eh.
      now destruct (startswith (b ++ "/" ++ p) "data:").
Qed.

End ExtraFacts.

Module SwarmuiExtra.
Import Py Http Swarmui Protocol Scenario Facts ExtraFacts.

(** X1: a session id that is not null but falsy (an empty string, zero,
    false, an empty list or object) counts as no session: the call
    returns the session error and sends nothing after the session POST. *)
Theorem falsy_session_no_generation model payload client_id b k w sid :
  fst (get_swarmui_session_id b k w) = Ret sid ->
  truthy sid = false ->
  exists w',
    swarmui_generate_image model payload client_id b k w
    = (Ret (error_dict "Could not obtain SwarmUI session id"), w')
    /\ w_requests w' = (w_requests w ++ [session_request b k])%list.
Proof.
  intros Hsid Ht. rewrite get_session_value in Hsid. injection Hsid as Hsid.
  destruct (generate_refines model payload client_id b k w) as (w' & E & _ & R).
  revert E R. unfold generate_run. rewrite Hsid, Ht. simpl. intros E R.
  exists w'. split; assumption.
Qed.

Lemma falsy_session_no_generation_witness :
  let w := fresh (scripted [session_ok ""]) in
  exists w',
    swarmui_generate_image "m" cat "c" svc "key" w
    = (Ret (error_dict "Could not obtain SwarmUI session id"), w')
    /\ w_requests w' = (w_requests w ++ [session_request svc "key"])%list.
Proof.
  apply (falsy_session_no_generation "m" cat "c" svc "key"
           (fresh (scripted [session_ok ""])) (JStr ""));
    reflexivity.
Defined.

(** X2: when the first generation POST fails (the call raises, the
    status is an error or the body does not parse) there is no retry:
    the result is [{error: str(e)}] with the text of that exception, and
    the session POST and this one POST are all that is sent. *)
Theorem generation_failure_not_retried model payload client_id b k w sid e :
  fst (get_swarmui_session_id b k w) = Ret sid ->
  truthy sid = true ->
  reply_json (w_server w (w_requests w ++ [session_request b k])%list
                (generation_request b k (data_of model payload sid)))
  = Raise e ->
  exists w',
    swarmui_generate_image model payload client_id b k w
    = (Ret (error_dict (str_exc e)), w')
    /\ w_requests w'
       = (w_requests w
            ++ [session_request b k;
                generation_request b k (data_of model payload sid)])%list.
Proof.
  intros Hsid Ht Hrep. rewrite get_session_value in Hsid.
  injection Hsid as Hsid.
  destruct (generate_refines model payload client_id b k w) as (w' & E & _ & R).
  revert E R. unfold generate_run. rewrite Hsid, Ht. simpl negb. cbv iota.
  rewrite Hrep. simpl. intros E R.
  exists w'. split; assumption.
Qed.

Lemma generation_failure_not_retried_witness :
  let w := fresh (scripted [session_ok "s1";
                            http_error "500 Server Error: Internal Server Error"]) in
  exists w',
    swarmui_generate_image "m" cat "c" svc "key" w
    = (Ret (error_dict "500 Server Error: Internal Server Error"), w')
    /\ w_requests w'
       = (w_requests w
            ++ [session_request svc "key";
                generation_request svc "key" (data_of "m" cat (JStr "s1"))])%list.
Proof.
  apply (generation_failure_not_retried "m" cat "c" svc "key"
           (fresh (scripted [session_ok "s1";
                             http_error "500 Server Error: Internal Server Error"]))
           (JStr "s1")
           (PyExc "HTTPError" "500 Server Error: Internal Server Error"));
    reflexivity.
Defined.


(** X3: on the retry the generation POST is sent again with the same
    payload, keys in the same order, only the value of [session_id]
    replaced by the new session id. *)
Theorem retry_replaces_only_session_id
    model payload client_id b k w sid d sid2 :
  fst (get_swarmui_session_id b k w) = Ret sid ->
  truthy sid = true ->
  reply_json (w_server w (w_requests w ++ [session_request b k])%list
                (generation_request b k (data_of model payload sid)))
  = Ret (JObj d) ->
  expiry_signal (JObj d) = true ->
  fst (get_swarmui_session_id b k
         (sent (sent w (session_request b k))
               (generation_request b k (data_of model payload sid))))
  = Ret sid2 ->
  truthy sid2 = true ->
  exists v w' data2,
    swarmui_generate_image model payload client_id b k w = (Ret v, w')
    /\ w_requests w'
       = (w_requests w
            ++ [session_request b k;
                generation_request b k (data_of model payload sid);
                session_request b k;
                generation_request b k data2])%list
    /\ dict_get data2 "session_id" = Some sid2
    /\ (forall key, key <> "session_id" ->
                    dict_get data2 key
                    = dict_get (data_of model payload sid) key)
    /\ map fst data2 = map fst (data_of model payload sid).
Proof.
  intros Hsid Ht Hrep Hexp Hsid2 Ht2.
  rewrite get_session_value in Hsid. injection Hsid as Hsid.
  rewrite get_session_value_after in Hsid2. injection Hsid2 as Hsid2.
  destruct (generate_refines model payload client_id b k w) as (w' & E & _ & R).
  rewrite (generate_run_after_expiry model payload b k _ _ sid d
             Hsid Ht Hrep Hexp) in E, R.
  cbv zeta in E, R. rewrite Hsid2, Ht2 in E, R. simpl negb in E, R.
  cbv iota in E, R.
  do 2 eexists. exists (dict_set (data_of model payload sid) "session_id" sid2).
  split; [exact E|].
  split; [|split; [apply dict_get_set_same|split]].
  - rewrite R.
    match goal with
    | |- context [match ?x with _ => _ end] => destruct x
    end; reflexivity.
  - intros key Hk. now apply dict_get_set_neq.
  - apply dict_set_keys, data_of_has_session.
Qed.


Lemma retry_replaces_only_session_id_witness :
  let w := fresh (scripted [session_ok "s1"; expired; session_ok "s2";
                            ok (JObj [("images", JArr [JStr "o/1.png"])])]) in
  exists v w' data2,
    swarmui_generate_image "m" cat "c" svc "key" w = (Ret v, w')
    /\ w_requests w'
       = (w_requests w
            ++ [session_request svc "key";
                generation_request svc "key" (data_of "m" cat (JStr "s1"));
                session_request svc "key";
                generation_request svc "key" data2])%list
    /\ dict_get data2 "session_id" = Some (JStr "s2")
    /\ (forall key, key <> "session_id" ->
                    dict_get data2 key
                    = dict_get (data_of "m" cat (JStr "s1")) key)
    /\ map fst data2 = map fst (data_of "m" cat (JStr "s1")).
Proof.
  apply (retry_replaces_only_session_id "m" cat "c" svc "key"
           (fresh (scripted [session_ok "s1"; expired; session_ok "s2";
                             ok (JObj [("images", JArr [JStr "o/1.png"])])]))
           (JStr "s1") [("error_id", JStr "invalid_session_id")] (JStr "s2"));
    reflexivity.
Defined.

(** X4: the response to the retried POST is final.  It is not examined
    for the expiry signal again: an object with an image list of strings
    gives the images, and an object without image list, a second expiry
    body included, gives [{data: []}] and no error. *)
Theorem retried_response_is_final
    model payload client_id b k w sid d sid2 d2 :
  fst (get_swarmui_session_id b k w) = Ret sid ->
  truthy sid = true ->
  reply_json (w_server w (w_requests w ++ [session_request b k])%list
                (generation_request b k (data_of model payload sid)))
  = Ret (JObj d) ->
  expiry_signal (JObj d) = true ->
  fst (get_swarmui_session_id b k
         (sent (sent w (session_request b k))
               (generation_request b k (data_of model payload sid))))
  = Ret sid2 ->
  truthy sid2 = true ->
  reply_json
    (w_server w
       (w_requests w
          ++ [session_request b k;
              generation_request b k (data_of model payload sid);
              session_request b k])%list
       (generation_request b k
          (dict_set (data_of model payload sid) "session_id" sid2)))
  = Ret (JObj d2) ->
  (forall ps,
      dict_get d2 "images" = Some (JArr (map JStr ps)) ->
      exists w',
        swarmui_generate_image model payload client_id b k w
        = (Ret (data_dict (map (fun p => image_ref (image_url b p)) ps)), w'))
  /\ (dict_get d2 "images" = None ->
      exists w',
        swarmui_generate_image model payload client_id b k w
        = (Ret (data_dict []), w')).
Proof.
  intros Hsid Ht Hrep Hexp Hsid2 Ht2 Hrep2.
  rewrite get_session_value in Hsid. injection Hsid as Hsid.
  rewrite get_session_value_after in Hsid2. injection Hsid2 as Hsid2.
  destruct (generate_refines model payload client_id b k w) as (w' & E & _ & _).
  rewrite (generate_run_after_expiry model payload b k _ _ sid d
             Hsid Ht Hrep Hexp) in E.
  cbv zeta in E. rewrite Hsid2, Ht2 in E. simpl negb in E. cbv iota in E.
  rewrite Hrep2 in E. simpl fst in E.
  split.
  - intros ps Hps. rewrite (images_or_error_strings b d2 ps Hps) in E.
    exists w'; exact E.
  - intros Hnone. rewrite (images_or_error_missing b d2 Hnone) in E.
    exists w'; exact E.
Qed.

Lemma retried_response_is_final_witness :
  let w := fresh (scripted [session_ok "s1"; expired; session_ok "s2"; expired]) in
  exists w',
    swarmui_generate_image "m" cat "c" svc "key" w = (Ret (data_dict []), w').
Proof.
  destruct (retried_response_is_final "m" cat "c" svc "key"
              (fresh (scripted [session_ok "s1"; expired; session_ok "s2";
                                expired]))
              (JStr "s1") [("error_id", JStr "invalid_session_id")]
              (JStr "s2") [("error_id", JStr "invalid_session_id")]
              eq_refl eq_refl eq_refl eq_refl eq_refl eq_refl eq_refl)
    as [_ H].
  exact (H eq_refl).
Defined.

(** X5: a falsy session id on the retry (null, an empty string, zero,
    false, an empty list or object) gives the retry error, and the second
    session POST is the last request. *)
Theorem falsy_retry_session_stops
    model payload client_id b k w sid d sid2 :
  fst (get_swarmui_session_id b k w) = Ret sid ->
  truthy sid = true ->
  reply_json (w_server w (w_requests w ++ [session_request b k])%list
                (generation_request b k (data_of model payload sid)))
  = Ret (JObj d) ->
  expiry_signal (JObj d) = true ->
  fst (get_swarmui_session_id b k
         (sent (sent w (session_request b k))
               (generation_request b k (data_of model payload sid))))
  = Ret sid2 ->
  truthy sid2 = false ->
  exists w',
    swarmui_generate_image model payload client_id b k w
    = (Ret (error_dict "Could not obtain SwarmUI session id (retry)"), w')
    /\ w_requests w'
       = (w_requests w
            ++ [session_request b k;
                generation_request b k (data_of model payload sid);
                session_request b k])%list.
Proof.
  intros Hsid Ht Hrep Hexp Hsid2 Ht2.
  rewrite get_session_value in Hsid. injection Hsid as Hsid.
  rewrite get_session_value_after in Hsid2. injection Hsid2 as Hsid2.
  destruct (generate_refines model payload client_id b k w) as (w' & E & _ & R).
  rewrite (generate_run_after_expiry model payload b k _ _ sid d
             Hsid Ht Hrep Hexp) in E, R.
  cbv zeta in E, R. rewrite Hsid2, Ht2 in E, R. simpl in E, R.
  exists w'. split; assumption.
Qed.

Lemma falsy_retry_session_stops_witness :
  let w := fresh (scripted [session_ok "s1"; expired; session_ok ""]) in
  exists w',
    swarmui_generate_image "m" cat "c" svc "key" w
    = (Ret (error_dict "Could not obtain SwarmUI session id (retry)"), w')
    /\ w_requests w'
       = (w_requests w
            ++ [session_request svc "key";
                generation_request svc "key" (data_of "m" cat (JStr "s1"));
                session_request svc "key"])%list.
Proof.
  apply (falsy_retry_session_stops "m" cat "c" svc "key"
           (fresh (scripted [session_ok "s1"; expired; session_ok ""]))
           (JStr "s1") [("error_id", JStr "invalid_session_id")] (JStr ""));
    reflexivity.
Defined.




(** X7: every request a call of [swarmui_generate_image] sends carries
    the [User-Agent] header [Mozilla/5.0], carries [Authorization:
    Bearer key] exactly when the API key is not empty, and has a
    timeout: 20 for a session POST, 120 for a generation POST. *)
Theorem generate_requests_headers_and_timeouts model payload client_id b k w :
  exists v w' tr,
    swarmui_generate_image model payload client_id b k w = (Ret v, w')
    /\ w_requests w' = (w_requests w ++ tr)%list
    /\ Forall (fun r =>
                 dict_get (req_headers r) "User-Agent" = Some "Mozilla/5.0"
                 /\ dict_get (req_headers r) "Authorization"
                    = (if nonempty k then Some ("Bearer " ++ k) else None)
                 /\ req_timeout r
                    = Some (if is_session_post b r then 20 else 120)) tr.
Proof.
  destruct (generate_refines model payload client_id b k w) as (w' & E & _ & R).
  do 3 eexists. split; [exact E|]. split; [exact R|].
  destruct (generate_run_trace model payload b k (w_server w) (w_requests w))
    as (sid & sid2 & H).
  cbv zeta in H.
  assert (Hs : forall r, r = session_request b k ->
               dict_get (req_headers r) "User-Agent" = Some "Mozilla/5.0"
               /\ dict_get (req_headers r) "Authorization"
                  = (if nonempty k then Some ("Bearer " ++ k) else None)
               /\ req_timeout r
                  = Some (if is_session_post b r then 20 else 120)).
  { intros r ->. rewrite session_post_is_session.
    destruct (session_headers_ok k) as [Hu Ha]. now repeat split. }
  assert (Hg : forall data r, r = generation_request b k data ->
               dict_get (req_headers r) "User-Agent" = Some "Mozilla/5.0"
               /\ dict_get (req_headers r) "Authorization"
                  = (if nonempty k then Some ("Bearer " ++ k) else None)
               /\ req_timeout r
                  = Some (if is_session_post b r then 20 else 120)).
  { intros data r ->. rewrite generation_post_not_session.
    destruct (session_headers_ok k) as [Hu Ha]. now repeat split. }
  destruct H as [-> | [-> | [-> | ->]]];
    repeat (constructor; [solve [apply Hs; reflexivity
                                |eapply Hg; reflexivity]|]);
    constructor.
Qed.

(** X8: the requests of one call come in this order: a session POST,
    then possibly a generation POST, a second session POST and a second
    generation POST; a generation POST is only sent with a truthy
    session id in its payload. *)
Theorem generation_protocol_shape model payload client_id b k w :
  exists v w' tr sid sid2,
    swarmui_generate_image model payload client_id b k w = (Ret v, w')
    /\ w_requests w' = (w_requests w ++ tr)%list
    /\ (tr = [session_request b k]
        \/ (truthy sid = true
            /\ (tr = [session_request b k;
                      generation_request b k (data_of model payload sid)]
                \/ tr = [session_request b k;
                         generation_request b k (data_of model payload sid);
                         session_request b k]
                \/ (truthy sid2 = true
                    /\ tr = [session_request b k;
                             generation_request b k (data_of model payload sid);
                             session_request b k;
                             generation_request b k
                               (dict_set (data_of model payload sid)
                                         "session_id" sid2)])))).
Proof.
  destruct (generate_refines model payload client_id b k w) as (w' & E & _ & R).
  destruct (generate_run_shape model payload b k (w_server w) (w_requests w))
    as (sid & sid2 & H).
  do 3 eexists. exists sid, sid2.
  split; [exact E|]. split; [exact R|]. exact H.
Qed.

(** X9: the generation payload spelled out: [images], [session_id],
    [prompt], [width], [height] and [steps] in this order with the
    request's values and the session id as received, then
    [negative_prompt], [seed] and [model] when they are given; no key
    occurs twice. *)
Theorem generation_payload_spelled model payload sid :
  data_of model payload sid
  = ([("images", JInt (Form.n payload));
      ("session_id", sid);
      ("prompt", JStr (Form.prompt payload));
      ("width", JInt (Form.width payload));
      ("height", JInt (Form.height payload));
      ("steps", json_of_option JInt (Form.steps payload))]
       ++ match Form.negative_prompt payload with
          | Some np => if nonempty np then [("negative_prompt", JStr np)] else []
          | None => []
          end
       ++ match Form.seed payload with
          | Some sd => [("seed", JInt sd)]
          | None => []
          end
       ++ (if nonempty model then [("model", JStr model)] else []))%list
  /\ NoDup (map fst (data_of model payload sid)).
Proof.
  unfold data_of, raw_input_of.
  destruct payload as [p np wd ht cnt st sd md]; simpl.
  destruct np as [np|]; [destruct (nonempty np)|];
    destruct sd; destruct (nonempty model); simpl;
    (split; [reflexivity|]);
    repeat (constructor; [simpl; intuition discriminate|]);
    constructor.
Qed.


(** X10: [list_swarmui_models] and [select_swarmui_model] send one POST
    each and hand back what the service reports: the value of [files],
    respectively [success], as it is in the body, whatever its type; the
    empty list, respectively false, when the body is an object without
    the field, is not an object, or the POST failed. *)
Theorem model_calls_return_service_values b k path depth subtype sortBy
    allowRemote sortReverse model_path backendId w :
  (exists w',
      list_swarmui_models b k path depth subtype sortBy allowRemote
                          sortReverse w
      = (Ret (match reply_json
                      (w_server w (w_requests w)
                         (list_models_request b k path depth subtype sortBy
                                              allowRemote sortReverse)) with
              | Ret (JObj d) =>
                  match dict_get d "files" with
                  | Some files => files
                  | None => JArr []
                  end
              | _ => JArr []
              end), w')
      /\ w_requests w'
         = (w_requests w
              ++ [list_models_request b k path depth subtype sortBy
                                      allowRemote sortReverse])%list)
  /\ (exists w',
        select_swarmui_model b k model_path backendId w
        = (Ret (match reply_json
                        (w_server w (w_requests w)
                           (select_model_request b k model_path backendId)) with
                | Ret (JObj d) =>
                    match dict_get d "success" with
                    | Some success => success
                    | None => JBool false
                    end
                | _ => JBool false
                end), w')
        /\ w_requests w'
           = (w_requests w
                ++ [select_model_request b k model_path backendId])%list).
Proof.
  split.
  - unfold list_swarmui_models, try_except. rewrite post_json_run.
    fold (list_models_request b k path depth subtype sortBy allowRemote
            sortReverse).
    destruct (reply_json _) as [data|e]; [|eexists; split; reflexivity].
    destruct data; eexists; split; reflexivity.
  - unfold select_swarmui_model, try_except. rewrite post_json_run.
    fold (select_model_request b k model_path backendId).
    destruct (reply_json _) as [data|e]; [|eexists; split; reflexivity].
    destruct data; eexists; split; reflexivity.
Qed.

(** X11: with a base url that starts with [http], resolving is stable:
    the urls the call returns, sent through the image loop again, come
    back unchanged. *)
Theorem resolved_urls_are_stable b d ps w :
  startswith b "http" = true ->
  dict_get d "images" = Some (JArr (map JStr ps)) ->
  exists urls,
    image_list b (JObj d) w = (Ret (data_dict (map image_ref urls)), w)
    /\ image_list b (JObj [("images", JArr (map JStr urls))]) w
       = (Ret (data_dict (map image_ref urls)), w).
Proof.
  intros Hb Hd. exists (map (image_url b) ps). split.
  - unfold image_list, bind, lift, ret; simpl. rewrite Hd; simpl.
    rewrite collect_images_strings. now rewrite map_map.
  - unfold image_list, bind, lift, ret; simpl.
    rewrite collect_images_strings. simpl. rewrite !map_map.
    replace (map (fun x => image_ref (image_url b (image_url b x))) ps)
      with (map (fun x => image_ref (image_url b x)) ps); [reflexivity|].
    apply map_ext. intros p. now rewrite (image_url_fixed b p Hb).
Qed.

Lemma resolved_urls_are_stable_witness :
  exists urls,
    image_list svc
      (JObj [("images", JArr [JStr "o/1.png"; JStr "data:image/png;base64,AA";
                              JStr "http://cdn.example/2.png"])])
      (fresh (scripted []))
    = (Ret (data_dict (map image_ref urls)), fresh (scripted []))
    /\ image_list svc (JObj [("images", JArr (map JStr urls))])
         (fresh (scripted []))
       = (Ret (data_dict (map image_ref urls)), fresh (scripted [])).
Proof.
  apply (resolved_urls_are_stable svc
           [("images", JArr [JStr "o/1.png"; JStr "data:image/png;base64,AA";
                             JStr "http://cdn.example/2.png"])]
           ["o/1.png"; "data:image/png;base64,AA"; "http://cdn.example/2.png"]
           (fresh (scripted [])));
    reflexivity.
Defined.

(** Without a scheme in the base url a resolved path is joined again. *)
Example resolved_path_joined_again :
  fst (image_list "svc.local:7801"
         (JObj [("images", JArr [JStr "svc.local:7801/o/1.png"])])
         (fresh (scripted [])))
  = Ret (data_dict [image_ref "svc.local:7801/svc.local:7801/o/1.png"]).
Proof. reflexivity. Qed.

(** X12: [get_swarmui_session_id] logs one ERROR line with the text of
    the exception when the POST, the status check, the parsing or the
    field access raises; when the body is an object it logs nothing,
    also when the object has no [session_id] and null is returned. *)
Theorem session_failure_logged_once b k w :
  exists v w',
    get_swarmui_session_id b k w = (Ret v, w')
    /\ w_log w'
       = (w_log w
            ++ match reply_json (w_server w (w_requests w)
                                   (session_request b k)) with
               | Raise e =>
                   [(ERROR,
                     ("Failed to get SwarmUI session id: " ++ str_exc e)%string)]
               | Ret (JObj _) => []
               | Ret body =>
                   [(ERROR,
                     ("Failed to get SwarmUI session id: '"
                        ++ type_name body
                        ++ "' object has no attribute 'get'")%string)]
               end)%list.
Proof.
  unfold get_swarmui_session_id, try_except. rewrite post_json_run.
  fold (session_request b k).
  destruct (reply_json _) as [data|e].
  - destruct data; simpl; do 2 eexists; split; try reflexivity.
    simpl. now rewrite app_nil_r.
  - simpl. do 2 eexists; split; reflexivity.
Qed.


(** X17: the form's own [model] field and the [client_id] argument do
    not reach the server: the result and the requests are the same
    whatever they are; the model that is sent is the [model] argument. *)
Theorem form_model_and_client_id_unused
    model p np wd ht cnt st sd md md' client_id client_id' b k w :
  let run1 := swarmui_generate_image model (Form.mk p np wd ht cnt st sd md)
                client_id b k w in
  let run2 := swarmui_generate_image model (Form.mk p np wd ht cnt st sd md')
                client_id' b k w in
  fst run1 = fst run2 /\ w_requests (snd run1) = w_requests (snd run2).
Proof.
  cbv zeta.
  destruct (generate_refines model (Form.mk p np wd ht cnt st sd md)
              client_id b k w) as (w1 & E1 & _ & R1).
  destruct (generate_refines model (Form.mk p np wd ht cnt st sd md')
              client_id' b k w) as (w2 & E2 & _ & R2).
  rewrite E1, E2. simpl fst. simpl snd. rewrite R1, R2.
  split; reflexivity.
Qed.

End SwarmuiExtra.

(** ** Facts about the functions on urllib *)

Module LegacyFacts.
Import Py Urllib Legacy.

Section Library.

Variable urlencode : list (string * string) -> string.
Variable json_dumps : json -> string.
Variable json_loads : string -> comp json.
Variable bytes_repr : string -> string.

(** X13: [queue_prompt] sends one request with the JSON document
    [{prompt, client_id}] as body and returns the decoded response; when
    the fetch or the decoding raises it logs one ERROR line and raises
    the same exception again to its caller. *)
Theorem queue_prompt_logs_and_reraises prompt client_id b k w :
  let data := json_dumps (JObj [("prompt", prompt);
                                ("client_id", JStr client_id)]) in
  let req := mkUrlRequest (b ++ "/prompt") (Some data)
               [("User-Agent", "Mozilla/5.0");
                ("Authorization", "Bearer " ++ k)] in
  let result := match u_server w (u_requests w) req with
                | UrlRaises e => Raise e
                | UrlReturns body => json_loads body
                end in
  exists w',
    queue_prompt json_dumps json_loads bytes_repr prompt client_id b k w
    = (result, w')
    /\ u_requests w' = (u_requests w ++ [req])%list
    /\ u_log w'
       = (u_log w
            ++ [(LInfo, "queue_prompt");
                (LDebug, ("queue_prompt data: " ++ bytes_repr data)%string)]
            ++ match result with
               | Raise e =>
                   [(LError, ("Error while queuing prompt: " ++ str_exc e)%string)]
               | Ret _ => []
               end)%list.
Proof.
  cbv zeta.
  unfold queue_prompt, utry_except, ubind, ulog, urlopen_read, ulift, uraise.
  simpl.
  destruct (u_server w (u_requests w) _) as [e|body]; simpl.
  - eexists; repeat split; simpl.
    repeat rewrite <- app_assoc; reflexivity.
  - destruct (json_loads body) as [v|e]; simpl;
      eexists; repeat split; simpl;
      repeat rewrite <- app_assoc; reflexivity.
Qed.

(** X14: [get_image] fetches, with a GET, exactly the url that
    [get_image_url] builds from the same file location. *)
Theorem get_image_fetches_built_url filename subfolder folder_type b k w :
  exists url wl r w',
    get_image_url urlencode filename subfolder folder_type b w = (Ret url, wl)
    /\ snd (get_image urlencode filename subfolder folder_type b k w) = w'
    /\ u_requests w' = (u_requests w ++ [r])%list
    /\ ureq_url r = url
    /\ ureq_data r = None
    /\ u_requests wl = u_requests w.
Proof.
  unfold get_image_url, get_image, ubind, ulog, uret, urlopen_read. simpl.
  destruct (u_server w (u_requests w) _); simpl;
    do 4 eexists; repeat split.
Qed.

(** X15: the requests of [queue_prompt], [get_image] and [get_history]
    carry the [User-Agent] header [Mozilla/5.0] and an [Authorization]
    header [Bearer key] whatever the key, an empty one included. *)
Theorem urllib_requests_always_authorized prompt client_id filename subfolder
    folder_type prompt_id b k w :
  let headers := [("User-Agent", "Mozilla/5.0");
                  ("Authorization", "Bearer " ++ k)] in
  (exists r,
      u_requests (snd (queue_prompt json_dumps json_loads bytes_repr
                         prompt client_id b k w))
      = (u_requests w ++ [r])%list
      /\ ureq_headers r = headers)
  /\ (exists r,
        u_requests (snd (get_image urlencode filename subfolder folder_type
                           b k w))
        = (u_requests w ++ [r])%list
        /\ ureq_headers r = headers)
  /\ (exists r,
        u_requests (snd (get_history json_loads prompt_id b k w))
        = (u_requests w ++ [r])%list
        /\ ureq_headers r = headers).
Proof.
  cbv zeta. split; [|split].
  - unfold queue_prompt, utry_except, ubind, ulog, urlopen_read, ulift, uraise.
    simpl.
    destruct (u_server w (u_requests w) _) as [e|body]; simpl;
      [|destruct (json_loads body)]; simpl; eexists; split; reflexivity.
  - unfold get_image, ubind, ulog, urlopen_read. simpl.
    destruct (u_server w (u_requests w) _); simpl; eexists; split; reflexivity.
  - unfold get_history, ubind, ulog, urlopen_read, ulift. simpl.
    destruct (u_server w (u_requests w) _) as [e|body]; simpl;
      eexists; split; reflexivity.
Qed.

(** X16: [get_image] and [get_history] catch nothing: what the fetch
    (or, for [get_history], the decoding) raises reaches the caller, and
    the only line logged is the INFO line at entry. *)
Theorem urllib_fetches_do_not_catch filename subfolder folder_type prompt_id
    b k w :
  let headers := [("User-Agent", "Mozilla/5.0");
                  ("Authorization", "Bearer " ++ k)] in
  let r1 := mkUrlRequest
              (b ++ "/view?"
                 ++ urlencode [("filename", filename);
                               ("subfolder", subfolder);
                               ("type", folder_type)])
              None headers in
  let r2 := mkUrlRequest (b ++ "/history/" ++ prompt_id) None headers in
  (exists w',
      get_image urlencode filename subfolder folder_type b k w
      = (match u_server w (u_requests w) r1 with
         | UrlRaises e => Raise e
         | UrlReturns body => Ret body
         end, w')
      /\ u_requests w' = (u_requests w ++ [r1])%list
      /\ u_log w' = (u_log w ++ [(LInfo, "get_image")])%list)
  /\ (exists w',
        get_history json_loads prompt_id b k w
        = (match u_server w (u_requests w) r2 with
           | UrlRaises e => Raise e
           | UrlReturns body => json_loads body
           end, w')
        /\ u_requests w' = (u_requests w ++ [r2])%list
        /\ u_log w' = (u_log w ++ [(LInfo, "get_history")])%list).
Proof.
  cbv zeta. split.
  - unfold get_image, ubind, ulog, urlopen_read. simpl.
    destruct (u_server w (u_requests w) _); simpl;
      eexists; repeat split.
  - unfold get_history, ubind, ulog, urlopen_read, ulift. simpl.
    destruct (u_server w (u_requests w) _) as [e|body]; simpl;
      eexists; repeat split.
Qed.

End Library.

End LegacyFacts.
